(** * Hospital waste management: direct-emission engine

    A shallow embedding of [src/config.py], [src/waste_stream.py],
    [src/processes/incineration.py], [src/processes/pyrolysis.py] and
    [src/database.py].

    Numbers.  The Python code computes with [float], that is in binary64.
    The engine is embedded twice.  In the first embedding every number is a
    rational of [Q]: sums and products are exact, and numeric statements
    use [==] ([Qeq]).  It carries the statements that do not turn on
    rounding: the keys of a result, the exceptions raised, what a call
    leaves unchanged, which quantities are zero, signs, proportionality to
    the mass.  The second embedding, [Binary64], computes with the kernel's
    binary64 numbers, operation by operation as the interpreter does; it
    carries the statements about the digits of a value.

    Units.  [pint] attaches a unit to some values.  The embedding keeps the
    magnitudes: the mass of a stream carries its mass unit and is converted
    by [to_kg]; a factor is the magnitude of the table entry (the units of
    the table are recalled in comments); an emission is a magnitude in
    kilograms. *)

From Stdlib Require Import QArith Qabs Lqa.
From Stdlib Require PrimFloat FloatOps.
From stdpp Require Import gmap strings.

Local Open Scope Q_scope.

(** ** Python results: a value or a raised exception *)

Inductive exn : Type :=
  | KeyError (key : string)
  | TypeError.

Inductive Res (A : Type) : Type :=
  | Ok (a : A)
  | Raise (e : exn).
Arguments Ok {A} a.
Arguments Raise {A} e.

#[global] Instance Res_ret : MRet Res := @Ok.
#[global] Instance Res_bind : MBind Res := λ A B k m,
  match m with
  | Ok a => k a
  | Raise e => Raise e
  end.

(** ** Dictionaries with string keys *)

(** [d[k]]: a missing key raises [KeyError]. *)
Definition getitem {V} (d : gmap string V) (k : string) : Res V :=
  match d !! k with
  | Some v => Ok v
  | None => Raise (KeyError k)
  end.

(** [d.get(k, dflt)]. *)
Definition dict_get {V} (d : gmap string V) (k : string) (dflt : V) : V :=
  default dflt (d !! k).

(** [d[k] *= x]: reads [d[k]], then stores the product. *)
Definition imul (d : gmap string Q) (k : string) (x : Q) : Res (gmap string Q) :=
  v ← getitem d k; Ok (<[k := v * x]> d).

(** ** Quantities of mass (the part of [pint] the engine uses) *)

Inductive MassUnit : Type := kilogram | gram | metric_ton.

Record Quantity : Type := mkQuantity { magnitude : Q; unit : MassUnit }.

Definition kg_per (u : MassUnit) : Q :=
  match u with
  | kilogram => 1
  | gram => 0.001
  | metric_ton => 1000
  end.

(** [q.to("kg")] *)
Definition to_kg (q : Quantity) : Quantity :=
  {| magnitude := magnitude q * kg_per (unit q); unit := kilogram |}.


(** ** The data model *)

(** category -> subcategory -> fraction *)
Abbreviation Composition := (gmap string (gmap string Q)).
(** factor name -> magnitude *)
Abbreviation Factors := (gmap string Q).
(** scenario key -> value *)
Abbreviation Scenario := (gmap string Q).
(** pollutant key -> kilograms *)
Abbreviation Emissions := (gmap string Q).

(** [composition.get(cat, {}).get(sub, 0)] *)
Definition fraction (composition : Composition) (cat sub : string) : Q :=
  dict_get (dict_get composition cat ∅) sub 0.

(** [scenario and key in scenario], and then [scenario[key]]: [None] and
    the empty dictionary are falsy, and the empty dictionary has no key. *)
Definition scenario_value (scenario : option Scenario) (key : string) : option Q :=
  match scenario with
  | None => None
  | Some d => d !! key
  end.

(** ** [src/config.py] *)

Module config.

(** [EMISSION_FACTORS["INCINERATION"]] *)
Definition INCINERATION : Factors :=
  list_to_map [
    ("carbon_content_fossil", 0.097);     (* kg/kWh *)
    ("carbon_content_biogenic", 0.054);   (* kg/kWh *)
    ("energy_content", 5.3);              (* kWh/kg *)
    ("nitrogen_frac_organic", 9.1e-6);
    ("sulfur_frac_organic", 0.0002);
    ("so2_conversion", 0.85);
    ("pm10_per_organic", 0.000031);
    ("pm25_per_organic", 0.0000217);
    ("nox_per_waste", 4.3e-6);
    ("hg_volatilization", 4.65e-5);
    ("pb_volatilization", 6.218e-4);
    ("combustion_efficiency", 0.97);
    ("excess_air_ratio", 1.4)
  ].

(** [EMISSION_FACTORS["PYROLYSIS"]] *)
Definition PYROLYSIS : Factors :=
  list_to_map [
    ("co2_fossil_per_organic", 0.06887);
    ("ch4_fossil_per_organic", 0.004);
    ("nmvoc_per_organic", 0.000645);
    ("pahs_per_organic", 0.000179);
    ("dioxin_per_chlorinated", 3.71e-13);
    ("hg_per_mercury", 0.86e-6);
    ("pb_per_heavy_metal", 0.45e-6)
  ].

Definition DEFAULT_COMPOSITION : Composition :=
  list_to_map [
    ("general_waste", list_to_map [
       ("non_hazardous", 0.65) ]);
    ("infectious_waste", list_to_map [
       ("body_fluids", 0.12);
       ("lab_cultures", 0.06) ]);
    ("sharps_waste", list_to_map [
       ("needles_sharps_plastic", 0.02);
       ("needles_sharps_metal", 0.02) ]);
    ("pharmaceutical_waste", list_to_map [
       ("pharmaceuticals", 0.04);
       ("pharmaceuticals_halogenated", 0.01) ]);
    ("chemical_waste", list_to_map [
       ("lab_reagents", 0.03);
       ("lab_cultures_disinfectants", 0.005);
       ("cytotoxic_organic", 0.015);
       ("cytotoxic_halogenated", 0.005) ]);
    ("heavy_metals_waste", list_to_map [
       ("mercury_waste", 0.015);
       ("other_heavy_metals", 0.015) ]);
    ("radioactive_waste", list_to_map [
       ("radioactive_metals", 0.005);
       ("radioactive_organic", 0.002) ])
  ].

End config.

(** ** [src/waste_stream.py] *)

Record WasteStream : Type := mkWasteStream {
  mass : Quantity;
  composition : Composition
}.

(** [WasteStream(mass=m)]: the composition defaults to a copy of
    [config.DEFAULT_COMPOSITION]. *)
Definition default_stream (m : Quantity) : WasteStream :=
  {| mass := m; composition := config.DEFAULT_COMPOSITION |}.

(** [if sub in new_comp.get(cat, {}): new_comp[cat][sub] *= k] *)
Definition scale_if_present (cat sub : string) (k : Q) (new_comp : Composition)
    : Composition :=
  match dict_get new_comp cat ∅ !! sub with
  | Some x => <[cat := <[sub := x * k]> (dict_get new_comp cat ∅)]> new_comp
  | None => new_comp
  end.

(** [WasteStream.adjust_for_segregation] *)
Definition adjust_for_segregation (self : WasteStream) (efficiency : Q) : WasteStream :=
  let new_comp := composition self in
  let new_comp :=
    scale_if_present "sharps_waste" "needles_sharps_plastic" (1 - efficiency) new_comp in
  let new_comp :=
    scale_if_present "chemical_waste" "cytotoxic_organic" (1 - efficiency) new_comp in
  let new_comp :=
    scale_if_present "chemical_waste" "lab_reagents" (1 - efficiency) new_comp in
  {| mass := mass self; composition := new_comp |}.

(** ** Quantities shared by the two processes *)

(** The seven-term sum of [calculate_direct_emissions]. *)
Definition total_organic (c : Composition) : Q :=
  fraction c "general_waste" "non_hazardous" +
  fraction c "infectious_waste" "body_fluids" +
  fraction c "infectious_waste" "lab_cultures" +
  fraction c "pharmaceutical_waste" "pharmaceuticals" +
  fraction c "chemical_waste" "cytotoxic_organic" +
  fraction c "radioactive_waste" "radioactive_organic" +
  fraction c "sharps_waste" "needles_sharps_plastic".

Definition fossil_organic (c : Composition) : Q :=
  fraction c "sharps_waste" "needles_sharps_plastic".

Definition biogenic_organic (c : Composition) : Q :=
  total_organic c - fossil_organic c.

Definition total_chlor (c : Composition) : Q :=
  fraction c "pharmaceutical_waste" "pharmaceuticals_halogenated" +
  fraction c "chemical_waste" "cytotoxic_halogenated".

(** ** [src/processes/incineration.py] *)

Module IncinerationProcess.

(** Lines 32-36, on the private copy [f]. *)
Definition scenario_adjust (scenario : option Scenario) (f : Factors) : Res Factors :=
  match scenario_value scenario "incineration_flue_gas_efficiency" with
  | Some efficiency =>
      f ← imul f "pm10_per_organic" (1 - efficiency);
      f ← imul f "pm25_per_organic" (1 - efficiency);
      imul f "nox_per_waste" (1 - efficiency)
  | None => Ok f
  end.

(** [energy = mass_q * f["energy_content"]], in kWh. *)
Definition energy (mass_q : Quantity) (energy_content : Q) : Q :=
  magnitude mass_q * energy_content.

(** The dictionary literal of lines 56-67. *)
Definition emissions_dict (co2_fossil co2_biogenic so2 nox pm10 pm25 hg pb : Q)
    : Emissions :=
  list_to_map [
    ("co2_fossil", co2_fossil);
    ("co2_biogenic", co2_biogenic);
    ("so2", so2);
    ("nox", nox);
    ("pm10", pm10);
    ("pm25", pm25);
    ("hg", hg);
    ("pb", pb)
  ].

(** Lines 70-73. *)
Definition combustion_penalty (f : Factors) (emissions : Emissions) : Res Emissions :=
  if Qlt_le_dec (dict_get f "combustion_efficiency" 1.0) 0.95 then
    ce ← getitem f "combustion_efficiency";
    let penalty := (0.95 - ce) * 2 in
    emissions ← imul emissions "pm10" (1 + penalty);
    imul emissions "pm25" (1 + penalty)
  else Ok emissions.

(** Lines 38-76: the formulas, reading the adjusted factors [f]. *)
Definition formulas (f : Factors) (waste : WasteStream) : Res Emissions :=
  let c := composition waste in
  let total_organic := total_organic c in
  let fossil_organic := fossil_organic c in
  let biogenic_organic := total_organic - fossil_organic in
  let mass_q := to_kg (mass waste) in
  energy_content ← getitem f "energy_content";
  let energy := energy mass_q energy_content in
  carbon_content_fossil ← getitem f "carbon_content_fossil";
  carbon_content_biogenic ← getitem f "carbon_content_biogenic";
  so2_conversion ← getitem f "so2_conversion";
  nox_per_waste ← getitem f "nox_per_waste";
  pm10_per_organic ← getitem f "pm10_per_organic";
  pm25_per_organic ← getitem f "pm25_per_organic";
  hg_volatilization ← getitem f "hg_volatilization";
  pb_volatilization ← getitem f "pb_volatilization";
  let emissions := emissions_dict
    (fossil_organic * energy * carbon_content_fossil * (44 / 12))
    (biogenic_organic * energy * carbon_content_biogenic * (44 / 12))
    (total_organic * magnitude mass_q * so2_conversion * (64 / 32))
    (magnitude mass_q * nox_per_waste)
    (magnitude mass_q * total_organic * pm10_per_organic)
    (magnitude mass_q * total_organic * pm25_per_organic)
    (magnitude mass_q * fraction c "heavy_metals_waste" "mercury_waste"
       * hg_volatilization)
    (magnitude mass_q * fraction c "heavy_metals_waste" "other_heavy_metals"
       * pb_volatilization) in
  combustion_penalty f emissions.

(** The value returned by [calculate_direct_emissions] as a function of
    the process's factor set, the stream and the scenario. *)
Definition calculate_direct_emissions
    (factors : Factors) (waste : WasteStream) (scenario : option Scenario)
    : Res Emissions :=
  f ← scenario_adjust scenario factors;
  formulas f waste.

End IncinerationProcess.

(** ** [src/processes/pyrolysis.py] *)

Module PyrolysisProcess.

(** The dictionary literal of lines 52-60. *)
Definition emissions_dict (co2_fossil ch4_fossil nmvoc pahs dioxin hg pb : Q)
    : Emissions :=
  list_to_map [
    ("co2_fossil", co2_fossil);
    ("ch4_fossil", ch4_fossil);
    ("nmvoc", nmvoc);
    ("pahs", pahs);
    ("dioxin", dioxin);
    ("hg", hg);
    ("pb", pb)
  ].

(** The scenario is accepted and not read. *)
Definition calculate_direct_emissions
    (factors : Factors) (waste : WasteStream) (scenario : option Scenario)
    : Res Emissions :=
  let f := factors in
  let c := composition waste in
  let total_organic := total_organic c in
  let total_chlor := total_chlor c in
  let mass := magnitude (to_kg (mass waste)) in
  co2_fossil_per_organic ← getitem f "co2_fossil_per_organic";
  ch4_fossil_per_organic ← getitem f "ch4_fossil_per_organic";
  nmvoc_per_organic ← getitem f "nmvoc_per_organic";
  pahs_per_organic ← getitem f "pahs_per_organic";
  dioxin_per_chlorinated ← getitem f "dioxin_per_chlorinated";
  hg_per_mercury ← getitem f "hg_per_mercury";
  pb_per_heavy_metal ← getitem f "pb_per_heavy_metal";
  Ok (emissions_dict
    (mass * total_organic * co2_fossil_per_organic)
    (mass * total_organic * ch4_fossil_per_organic)
    (mass * total_organic * nmvoc_per_organic)
    (mass * total_organic * pahs_per_organic)
    (mass * total_chlor * dioxin_per_chlorinated)
    (mass * fraction c "heavy_metals_waste" "mercury_waste" * hg_per_mercury)
    (mass * fraction c "heavy_metals_waste" "other_heavy_metals"
       * pb_per_heavy_metal)).

End PyrolysisProcess.


(** ** The calls on a store of objects

    [calculate_direct_emissions] receives references: [self.factors] is the
    dictionary held by the process (an entry of [config.EMISSION_FACTORS])
    and [waste] is the caller's stream.  The store maps a reference to the
    object it denotes; a call returns its result and the store it leaves. *)

Inductive Obj : Type :=
  | ODict (d : Factors)
  | OWaste (w : WasteStream).

Abbreviation loc := positive.
Abbreviation Store := (gmap positive Obj).

Definition St (A : Type) : Type := Store → Res A * Store.

#[global] Instance St_ret : MRet St := λ A a h, (Ok a, h).
#[global] Instance St_bind : MBind St := λ A B k m h,
  match m h with
  | (Ok a, h') => k a h'
  | (Raise e, h') => (Raise e, h')
  end.

(** A pure computation inside a call. *)
Definition lift {A} (r : Res A) : St A := λ h, (r, h).

(** [copy.deepcopy(l)]: a new object, equal to the one at [l]. *)
Definition deepcopy (l : loc) : St loc := λ h,
  match h !! l with
  | Some o => let l' := fresh (dom h) in (Ok l', <[l' := o]> h)
  | None => (Raise TypeError, h)
  end.

Definition load_dict (l : loc) : St Factors := λ h,
  match h !! l with
  | Some (ODict d) => (Ok d, h)
  | _ => (Raise TypeError, h)
  end.

Definition load_waste (l : loc) : St WasteStream := λ h,
  match h !! l with
  | Some (OWaste w) => (Ok w, h)
  | _ => (Raise TypeError, h)
  end.

(** [l[k] *= x] on the dictionary object at [l]. *)
Definition store_imul (l : loc) (k : string) (x : Q) : St () := λ h,
  match h !! l with
  | Some (ODict d) =>
      match imul d k x with
      | Ok d' => (Ok (), <[l := ODict d']> h)
      | Raise e => (Raise e, h)
      end
  | _ => (Raise TypeError, h)
  end.

Module OnStore.

(** [IncinerationProcess.calculate_direct_emissions]: [f] is a deep copy
    of [self.factors]; the scenario rescales the entries of [f]. *)
Definition incineration (self_factors waste : loc) (scenario : option Scenario)
    : St Emissions :=
  f ← deepcopy self_factors;
  _ ← match scenario_value scenario "incineration_flue_gas_efficiency" with
      | Some efficiency =>
          _ ← store_imul f "pm10_per_organic" (1 - efficiency);
          _ ← store_imul f "pm25_per_organic" (1 - efficiency);
          store_imul f "nox_per_waste" (1 - efficiency)
      | None => mret ()
      end;
  w ← load_waste waste;
  d ← load_dict f;
  lift (IncinerationProcess.formulas d w).

(** [PyrolysisProcess.calculate_direct_emissions]: [f = self.factors]
    names the shared dictionary itself, which is only read. *)
Definition pyrolysis (self_factors waste : loc) (scenario : option Scenario)
    : St Emissions :=
  let f := self_factors in
  w ← load_waste waste;
  d ← load_dict f;
  lift (PyrolysisProcess.calculate_direct_emissions d w scenario).

End OnStore.

(** ** Notions used in the statements *)

(** The factor names a process subscripts with [f[...]]. *)
Definition incineration_keys : list string :=
  [ "energy_content"; "carbon_content_fossil"; "carbon_content_biogenic";
    "so2_conversion"; "nox_per_waste"; "pm10_per_organic"; "pm25_per_organic";
    "hg_volatilization"; "pb_volatilization" ].

Definition pyrolysis_keys : list string :=
  [ "co2_fossil_per_organic"; "ch4_fossil_per_organic"; "nmvoc_per_organic";
    "pahs_per_organic"; "dioxin_per_chlorinated"; "hg_per_mercury";
    "pb_per_heavy_metal" ].

Definition has_keys (keys : list string) (f : Factors) : bool :=
  forallb (λ k, bool_decide (is_Some (f !! k))) keys.


(** An entry of a composition, when it is present. *)
Definition entry (c : Composition) (cat sub : string) : option Q :=
  dict_get c cat ∅ !! sub.


(** Make a missing entry explicit, with fraction 0. *)
Definition zero_if_missing (cs : string * string) (c : Composition) : Composition :=
  match entry c cs.1 cs.2 with
  | Some _ => c
  | None => <[cs.1 := <[cs.2 := 0]> (dict_get c cs.1 ∅)]> c
  end.

(** The entries read by the two processes. *)
Definition read_entries : list (string * string) :=
  [ ("general_waste", "non_hazardous");
    ("infectious_waste", "body_fluids");
    ("infectious_waste", "lab_cultures");
    ("pharmaceutical_waste", "pharmaceuticals");
    ("chemical_waste", "cytotoxic_organic");
    ("radioactive_waste", "radioactive_organic");
    ("sharps_waste", "needles_sharps_plastic");
    ("pharmaceutical_waste", "pharmaceuticals_halogenated");
    ("chemical_waste", "cytotoxic_halogenated");
    ("heavy_metals_waste", "mercury_waste");
    ("heavy_metals_waste", "other_heavy_metals") ].

Definition with_explicit_zeros (w : WasteStream) : WasteStream :=
  {| mass := mass w;
     composition := foldr zero_if_missing (composition w) read_entries |}.

(** What the scenario makes of a factor it rescales. *)
Definition flue_gas_scaled (scenario : option Scenario) (v : Q) : Q :=
  match scenario_value scenario "incineration_flue_gas_efficiency" with
  | Some efficiency => v * (1 - efficiency)
  | None => v
  end.

(** What the combustion-efficiency test makes of a particulate emission. *)
Definition penalised (f : Factors) (v : Q) : Q :=
  if Qlt_le_dec (dict_get f "combustion_efficiency" 1.0) 0.95
  then v * (1 + (0.95 - dict_get f "combustion_efficiency" 1.0) * 2)
  else v.

(** The value a factor has in a table (the default is not used for a key
    that is present). *)
Definition factor (f : Factors) (k : string) : Q := dict_get f k 0.

(** The entries [adjust_for_segregation] rescales. *)
Definition hazardous_entries : list (string * string) :=
  [ ("sharps_waste", "needles_sharps_plastic");
    ("chemical_waste", "cytotoxic_organic");
    ("chemical_waste", "lab_reagents") ].

(** Two entries are both absent, or both present with equal values. *)
Definition same_entry : option Q → option Q → Prop := option_Forall2 Qeq.





(** A computation that keeps every object of [h0] as it is. *)
Definition keeps {A} (h0 : Store) (m : St A) : Prop :=
  ∀ h, h0 ⊆ h → h0 ⊆ (m h).2.

(** A stream whose composition has heavy metals only. *)
Definition metals_only_stream : WasteStream :=
  {| mass := {| magnitude := 250; unit := gram |};
     composition := list_to_map [
       ("heavy_metals_waste", list_to_map [("mercury_waste", 0.4)]) ] |}.

(** A store with the incineration factors at [1] and a 100 kg default
    stream at [2]. *)
Definition example_store : Store :=
  list_to_map [
    (1%positive, ODict config.INCINERATION);
    (2%positive, OWaste (default_stream {| magnitude := 100; unit := kilogram |})) ].

(** ** [src/database.py]

    The inventory side: flows of the biosphere database, the index built
    over them, and the exchanges written on an activity.  A flow has a
    code ([flow["code"]]) and a key ([flow.key], the pair of its database
    and its code); an activity has a key, a name, a unit and its
    exchanges, in the order they were saved. *)

Module database.

Record Flow : Type := mkFlow {
  flow_database : string;
  flow_code : string;
  flow_name : string
}.

Definition flow_key (flow : Flow) : string * string :=
  (flow_database flow, flow_code flow).

Record Exchange : Type := mkExchange {
  exc_amount : Q;
  exc_type : string;
  exc_unit : string;
  exc_input : string * string
}.

Record Activity : Type := mkActivity {
  act_key : string * string;
  act_name : string;
  act_unit : string;
  exchanges : list Exchange
}.

Definition with_exchanges (act : Activity) (excs : list Exchange) : Activity :=
  {| act_key := act_key act; act_name := act_name act;
     act_unit := act_unit act; exchanges := excs |}.

(** [build_flow_index]: [index[flow["code"]] = flow] for each flow in turn. *)
Definition build_flow_index (bio_db : list Flow) : gmap string Flow :=
  foldl (λ index flow, <[flow_code flow := flow]> index) ∅ bio_db.

(** [get_flow_by_uuid] *)
Definition get_flow_by_uuid (flow_index : gmap string Flow) (uuid : string) : Res Flow :=
  match flow_index !! uuid with
  | Some flow => Ok flow
  | None => Raise (KeyError ("Flow with UUID " +:+ uuid +:+ " missing."))
  end.

(** The dictionary literal of [retrieve_flows], as its items. *)
Definition flow_uuids : list (string * string) :=
  [ ("co2_fossil", "aa7cac3a-3625-41d4-bc54-33e2cf11ec46");
    ("co2_biogenic", "d6235194-e4e6-4548-bfa3-ac095131aef4");
    ("ch4_fossil", "70ef743b-3ed5-4a6d-b192-fb6d62378555");
    ("ch4_biogenic", "da1157e2-7593-4dfd-80dd-a3449b37a4d8");
    ("nox", "77357947-ccc5-438e-9996-95e65e1e1bce");
    ("so2", "78c3efe4-421c-4d30-82e4-b97ac5124993");
    ("pm25", "66f50b33-fd62-4fdd-a373-c5b0de7de00d");
    ("hg", "5ec9c16a-959d-44cd-be7d-a935727d2151");
    ("pb", "2718482b-8399-442e-b89a-52fbcc22d2e6");
    ("dioxin", "f77c5e36-ee47-4437-b757-03139bb1d6d6");
    ("pahs", "13d898ac-b9be-4723-a153-565e2a9144ac");
    ("nmvoc", "33b38ccb-593b-4b11-b965-10d747ba3556");
    ("nh3", "0f440cc0-0f74-446d-99d6-8ff0e97a2444");
    ("pm10", "7678cec7-b8e1-439d-8242-99cd452834b1");
    ("chlorine_air", "247ac273-60fa-4e21-9408-793f75fa1d37");
    ("land_occupation", "1eaa9ea4-40b8-414a-b198-5626400372e1") ].

(** The loop of [retrieve_flows] over the remaining items: only a
    [KeyError] is caught. *)
Fixpoint retrieve_loop (flow_index : gmap string Flow) (items : list (string * string))
    (flows : gmap string (option Flow)) : Res (gmap string (option Flow)) :=
  match items with
  | [] => Ok flows
  | (key, uuid) :: items =>
      match get_flow_by_uuid flow_index uuid with
      | Ok flow => retrieve_loop flow_index items (<[key := Some flow]> flows)
      | Raise (KeyError _) => retrieve_loop flow_index items (<[key := None]> flows)
      | Raise e => Raise e
      end
  end.

(** [retrieve_flows] *)
Definition retrieve_flows (flow_index : gmap string Flow)
    : Res (gmap string (option Flow)) :=
  retrieve_loop flow_index flow_uuids ∅.

(** [create_activity(db, code, name, unit)], for the database named [db]. *)
Definition create_activity (db code name unit : string) : Activity :=
  {| act_key := (db, code); act_name := name; act_unit := unit; exchanges := [] |}.

(** [str(amount.units)] *)
Definition unit_name (u : MassUnit) : string :=
  match u with
  | kilogram => "kilogram"
  | gram => "gram"
  | metric_ton => "metric_ton"
  end.

(** [abs(amount.magnitude) <= 1e-15] *)
Definition negligible (amount : Quantity) : bool :=
  Qle_bool (Qabs (magnitude amount)) 1e-15.

Section saving.

(** What [exchange.save()] does is the database's business: [save_error exc]
    is the exception it raises for [exc], if any. *)
Variable save_error : Exchange → option exn.

(** [add_production_exchange(act, amount)]: the result of the call and the
    activity it leaves. *)
Definition add_production_exchange (act : Activity) (amount : Q)
    : Res () * Activity :=
  let act :=
    with_exchanges act
      (filter (λ exc, exc_type exc ≠ "production") (exchanges act)) in
  let exc := {| exc_amount := amount; exc_type := "production";
                exc_unit := act_unit act; exc_input := act_key act |} in
  match save_error exc with
  | None => (Ok (), with_exchanges act (exchanges act ++ [exc]))
  | Some e => (Raise e, act)
  end.

(** [add_biosphere_exchanges(act, emissions, flows)], on the items of
    [emissions] in their order; the function returns nothing and the
    result is the activity it leaves. *)
Fixpoint add_biosphere_exchanges (act : Activity)
    (emissions : list (string * Quantity)) (flows : gmap string (option Flow))
    : Activity :=
  match emissions with
  | [] => act
  | (flow_name, amount) :: emissions =>
      match dict_get flows flow_name None with
      | None => add_biosphere_exchanges act emissions flows
      | Some flow_obj =>
          if negligible amount then add_biosphere_exchanges act emissions flows
          else
            let exc := {| exc_amount := magnitude amount; exc_type := "biosphere";
                          exc_unit := unit_name (unit amount);
                          exc_input := flow_key flow_obj |} in
            match save_error exc with
            | None =>
                add_biosphere_exchanges
                  (with_exchanges act (exchanges act ++ [exc])) emissions flows
            | Some _ => add_biosphere_exchanges act emissions flows
            end
      end
  end.

End saving.

End database.

(** ** More notions used in the statements *)

(** The items of a result of a process, as quantities in kilograms. *)
Definition emission_items (em : Emissions) : list (string * Quantity) :=
  (λ kv, (kv.1, {| magnitude := kv.2; unit := kilogram |})) <$> map_to_list em.

(** The exchange [add_biosphere_exchanges] writes for an amount and a flow. *)
Definition biosphere_exchange (amount : Quantity) (flow : database.Flow)
    : database.Exchange :=
  {| database.exc_amount := magnitude amount;
     database.exc_type := "biosphere";
     database.exc_unit := database.unit_name (unit amount);
     database.exc_input := database.flow_key flow |}.

(** None of the fractions the processes read is negative. *)
Definition nonneg_fractions (c : Composition) : Prop :=
  Forall (λ cs, 0 <= fraction c cs.1 cs.2) read_entries.

(** None of the factors of [keys] is negative. *)
Definition nonneg_factors (keys : list string) (f : Factors) : Prop :=
  Forall (λ k, 0 <= factor f k) keys.

(** Every quantity of a result is at least 0. *)
Definition nonneg_emissions (em : Emissions) : Prop :=
  map_Forall (λ _ v, 0 <= v) em.


(** Two results have the same keys and equal quantities. *)
Definition same_emissions (em em' : Emissions) : Prop :=
  ∀ k, option_Forall2 Qeq (em !! k) (em' !! k).

(** A database never refusing an exchange. *)
Definition always_saves : database.Exchange → option exn := λ _, None.

(** The exchange [add_biosphere_exchanges] writes for an item of the
    emissions, if it writes one: the flow is resolved, the amount is not
    negligible and the database accepts the exchange. *)
Definition written (save_error : database.Exchange → option exn)
    (flows : gmap string (option database.Flow))
    (item : string * Quantity) : option database.Exchange :=
  flow ← dict_get flows item.1 None;
  if database.negligible item.2 then None
  else match save_error (biosphere_exchange item.2 flow) with
       | None => Some (biosphere_exchange item.2 flow)
       | Some _ => None
       end.

(** The exchanges of an activity that are production exchanges, and the
    others. *)
Definition production_exchanges (act : database.Activity) : list database.Exchange :=
  filter (λ exc, database.exc_type exc = "production") (database.exchanges act).

Definition other_exchanges (act : database.Activity) : list database.Exchange :=
  filter (λ exc, database.exc_type exc ≠ "production") (database.exchanges act).

(** Two flows of the biosphere database and an activity with exchanges. *)
Definition example_flows : list database.Flow :=
  [ {| database.flow_database := "biosphere3";
       database.flow_code := "aa7cac3a-3625-41d4-bc54-33e2cf11ec46";
       database.flow_name := "Carbon dioxide, fossil" |};
    {| database.flow_database := "biosphere3";
       database.flow_code := "77357947-ccc5-438e-9996-95e65e1e1bce";
       database.flow_name := "Nitrogen oxides" |} ].

Definition example_activity : database.Activity :=
  database.with_exchanges
    (database.create_activity "waste_db" "incineration_KBTH" "Incineration" "kilogram")
    [ {| database.exc_amount := 2; database.exc_type := "production";
         database.exc_unit := "kilogram";
         database.exc_input := ("waste_db", "incineration_KBTH") |};
      {| database.exc_amount := 0.5; database.exc_type := "technosphere";
         database.exc_unit := "kilowatt hour";
         database.exc_input := ("waste_db", "electricity") |} ].

(** A database refusing every exchange. *)
Definition never_saves : database.Exchange → option exn := λ _, Some TypeError.

(** ** The Microwave variant

    [src/config.py] holds the factor table of the Microwave variant, with
    its [emission_limits] and [enforce_emission_limits]; the code of the
    variant is not among the source files. *)

Module MicrowaveProcess.





End MicrowaveProcess.

(** ** The engine in binary64 arithmetic

    The same functions with the numbers the interpreter computes with: a
    Python [float] is an IEEE 754 binary64 number, the kernel's primitive
    [float], and every sum, difference, product and quotient is rounded to
    the nearest one.  The operations are written in the order the source
    evaluates them.  Where the source mixes an integer with a float ([1 -
    efficiency], [1 + penalty], [... * 2], [44 / 12], the default [0] of
    [.get]) the integer is converted exactly.  The mass of a stream is the
    magnitude in kilograms that [waste.mass.to("kg")] holds; the factor
    [ureg("kg")] has magnitude 1 and leaves a magnitude as it is.

    The statements that depend on the digits of a result are made on this
    module. *)

Module Binary64.

Import PrimFloat.
#[local] Open Scope float_scope.
#[local] Set Warnings "-inexact-float".

(** category -> subcategory -> fraction *)
Abbreviation Composition := (gmap string (gmap string float)).
(** factor name -> magnitude *)
Abbreviation Factors := (gmap string float).
(** scenario key -> value *)
Abbreviation Scenario := (gmap string float).
(** pollutant key -> kilograms *)
Abbreviation Emissions := (gmap string float).

(** [d[k] *= x] *)
Definition imul (d : gmap string float) (k : string) (x : float)
    : Res (gmap string float) :=
  v ← getitem d k; Ok (<[k := v * x]> d).

(** [composition.get(cat, {}).get(sub, 0)] *)
Definition fraction (composition : Composition) (cat sub : string) : float :=
  dict_get (dict_get composition cat ∅) sub 0.

(** [scenario and key in scenario], and then [scenario[key]]. *)
Definition scenario_value (scenario : option Scenario) (key : string) : option float :=
  match scenario with
  | None => None
  | Some d => d !! key
  end.

(** *** [src/config.py] *)

Module config.

(** [EMISSION_FACTORS["INCINERATION"]] *)
Definition INCINERATION : Factors :=
  list_to_map [
    ("carbon_content_fossil", 0.097);     (* kg/kWh *)
    ("carbon_content_biogenic", 0.054);   (* kg/kWh *)
    ("energy_content", 5.3);              (* kWh/kg *)
    ("nitrogen_frac_organic", 9.1e-6);
    ("sulfur_frac_organic", 0.0002);
    ("so2_conversion", 0.85);
    ("pm10_per_organic", 0.000031);
    ("pm25_per_organic", 0.0000217);
    ("nox_per_waste", 4.3e-6);
    ("hg_volatilization", 4.65e-5);
    ("pb_volatilization", 6.218e-4);
    ("combustion_efficiency", 0.97);
    ("excess_air_ratio", 1.4)
  ].

(** [EMISSION_FACTORS["PYROLYSIS"]] *)
Definition PYROLYSIS : Factors :=
  list_to_map [
    ("co2_fossil_per_organic", 0.06887);
    ("ch4_fossil_per_organic", 0.004);
    ("nmvoc_per_organic", 0.000645);
    ("pahs_per_organic", 0.000179);
    ("dioxin_per_chlorinated", 3.71e-13);
    ("hg_per_mercury", 0.86e-6);
    ("pb_per_heavy_metal", 0.45e-6)
  ].

Definition DEFAULT_COMPOSITION : Composition :=
  list_to_map [
    ("general_waste", list_to_map [
       ("non_hazardous", 0.65) ]);
    ("infectious_waste", list_to_map [
       ("body_fluids", 0.12);
       ("lab_cultures", 0.06) ]);
    ("sharps_waste", list_to_map [
       ("needles_sharps_plastic", 0.02);
       ("needles_sharps_metal", 0.02) ]);
    ("pharmaceutical_waste", list_to_map [
       ("pharmaceuticals", 0.04);
       ("pharmaceuticals_halogenated", 0.01) ]);
    ("chemical_waste", list_to_map [
       ("lab_reagents", 0.03);
       ("lab_cultures_disinfectants", 0.005);
       ("cytotoxic_organic", 0.015);
       ("cytotoxic_halogenated", 0.005) ]);
    ("heavy_metals_waste", list_to_map [
       ("mercury_waste", 0.015);
       ("other_heavy_metals", 0.015) ]);
    ("radioactive_waste", list_to_map [
       ("radioactive_metals", 0.005);
       ("radioactive_organic", 0.002) ])
  ].

End config.

(** *** [src/waste_stream.py] *)

Record WasteStream : Type := mkWasteStream {
  mass_kg : float;
  composition : Composition
}.

(** [WasteStream(mass=m * ureg("kg"))] *)
Definition default_stream (m : float) : WasteStream :=
  {| mass_kg := m; composition := config.DEFAULT_COMPOSITION |}.

(** [if sub in new_comp.get(cat, {}): new_comp[cat][sub] *= k] *)
Definition scale_if_present (cat sub : string) (k : float) (new_comp : Composition)
    : Composition :=
  match dict_get new_comp cat ∅ !! sub with
  | Some x => <[cat := <[sub := x * k]> (dict_get new_comp cat ∅)]> new_comp
  | None => new_comp
  end.

(** [WasteStream.adjust_for_segregation] *)
Definition adjust_for_segregation (self : WasteStream) (efficiency : float)
    : WasteStream :=
  let new_comp := composition self in
  let new_comp :=
    scale_if_present "sharps_waste" "needles_sharps_plastic" (1 - efficiency) new_comp in
  let new_comp :=
    scale_if_present "chemical_waste" "cytotoxic_organic" (1 - efficiency) new_comp in
  let new_comp :=
    scale_if_present "chemical_waste" "lab_reagents" (1 - efficiency) new_comp in
  {| mass_kg := mass_kg self; composition := new_comp |}.

(** *** Quantities shared by the two processes *)

Definition total_organic (c : Composition) : float :=
  fraction c "general_waste" "non_hazardous" +
  fraction c "infectious_waste" "body_fluids" +
  fraction c "infectious_waste" "lab_cultures" +
  fraction c "pharmaceutical_waste" "pharmaceuticals" +
  fraction c "chemical_waste" "cytotoxic_organic" +
  fraction c "radioactive_waste" "radioactive_organic" +
  fraction c "sharps_waste" "needles_sharps_plastic".

Definition fossil_organic (c : Composition) : float :=
  fraction c "sharps_waste" "needles_sharps_plastic".

Definition biogenic_organic (c : Composition) : float :=
  total_organic c - fossil_organic c.

Definition total_chlor (c : Composition) : float :=
  fraction c "pharmaceutical_waste" "pharmaceuticals_halogenated" +
  fraction c "chemical_waste" "cytotoxic_halogenated".

(** *** [src/processes/incineration.py] *)

Module IncinerationProcess.

(** Lines 32-36, on the private copy [f]. *)
Definition scenario_adjust (scenario : option Scenario) (f : Factors) : Res Factors :=
  match scenario_value scenario "incineration_flue_gas_efficiency" with
  | Some efficiency =>
      f ← imul f "pm10_per_organic" (1 - efficiency);
      f ← imul f "pm25_per_organic" (1 - efficiency);
      imul f "nox_per_waste" (1 - efficiency)
  | None => Ok f
  end.

(** [energy = mass_q * f["energy_content"]], in kWh. *)
Definition energy (mass_q : float) (energy_content : float) : float :=
  mass_q * energy_content.

(** The dictionary literal of lines 57-68. *)
Definition emissions_dict (co2_fossil co2_biogenic so2 nox pm10 pm25 hg pb : float)
    : Emissions :=
  list_to_map [
    ("co2_fossil", co2_fossil);
    ("co2_biogenic", co2_biogenic);
    ("so2", so2);
    ("nox", nox);
    ("pm10", pm10);
    ("pm25", pm25);
    ("hg", hg);
    ("pb", pb)
  ].

(** Lines 70-73. *)
Definition combustion_penalty (f : Factors) (emissions : Emissions) : Res Emissions :=
  if dict_get f "combustion_efficiency" 1.0 <? 0.95 then
    ce ← getitem f "combustion_efficiency";
    let penalty := (0.95 - ce) * 2 in
    emissions ← imul emissions "pm10" (1 + penalty);
    imul emissions "pm25" (1 + penalty)
  else Ok emissions.

(** Lines 38-76: the formulas, reading the adjusted factors [f]. *)
Definition formulas (f : Factors) (waste : WasteStream) : Res Emissions :=
  let c := composition waste in
  let total_organic := total_organic c in
  let fossil_organic := fossil_organic c in
  let biogenic_organic := total_organic - fossil_organic in
  let mass_q := mass_kg waste in
  energy_content ← getitem f "energy_content";
  let energy := energy mass_q energy_content in
  carbon_content_fossil ← getitem f "carbon_content_fossil";
  carbon_content_biogenic ← getitem f "carbon_content_biogenic";
  so2_conversion ← getitem f "so2_conversion";
  nox_per_waste ← getitem f "nox_per_waste";
  pm10_per_organic ← getitem f "pm10_per_organic";
  pm25_per_organic ← getitem f "pm25_per_organic";
  hg_volatilization ← getitem f "hg_volatilization";
  pb_volatilization ← getitem f "pb_volatilization";
  let emissions := emissions_dict
    (fossil_organic * energy * carbon_content_fossil * (44 / 12))
    (biogenic_organic * energy * carbon_content_biogenic * (44 / 12))
    (total_organic * mass_q * so2_conversion * (64 / 32))
    (mass_q * nox_per_waste)
    (mass_q * total_organic * pm10_per_organic)
    (mass_q * total_organic * pm25_per_organic)
    (mass_q * fraction c "heavy_metals_waste" "mercury_waste" * hg_volatilization)
    (mass_q * fraction c "heavy_metals_waste" "other_heavy_metals"
       * pb_volatilization) in
  combustion_penalty f emissions.

Definition calculate_direct_emissions
    (factors : Factors) (waste : WasteStream) (scenario : option Scenario)
    : Res Emissions :=
  f ← scenario_adjust scenario factors;
  formulas f waste.

End IncinerationProcess.

(** *** Notions used in the statements *)

Definition has_keys (keys : list string) (f : Factors) : bool :=
  forallb (λ k, bool_decide (is_Some (f !! k))) keys.

(** An entry of a composition, when it is present. *)
Definition entry (c : Composition) (cat sub : string) : option float :=
  dict_get c cat ∅ !! sub.

(** The value a factor has in a table. *)
Definition factor (f : Factors) (k : string) : float := dict_get f k 0.

(** What the scenario makes of a factor it rescales. *)
Definition flue_gas_scaled (scenario : option Scenario) (v : float) : float :=
  match scenario_value scenario "incineration_flue_gas_efficiency" with
  | Some efficiency => v * (1 - efficiency)
  | None => v
  end.

(** What the combustion-efficiency test makes of a particulate emission. *)
Definition penalised (f : Factors) (v : float) : float :=
  if dict_get f "combustion_efficiency" 1.0 <? 0.95
  then v * (1 + (0.95 - dict_get f "combustion_efficiency" 1.0) * 2)
  else v.

(** The rational a finite binary64 number stands for. *)
Definition to_Q (x : float) : option Q :=
  match FloatOps.Prim2SF x with
  | SpecFloat.S754_zero _ => Some 0%Q
  | SpecFloat.S754_finite s m e =>
      Some ((if s then -1 else 1) * inject_Z (Z.pos m) * Qpower 2 e)%Q
  | _ => None
  end.

(** [x] is finite and within [eps] of the rational [q]. *)
Definition near (x : float) (q eps : Q) : Prop :=
  ∃ v, to_Q x = Some v ∧ (Qabs (v - q) <= eps)%Q.

End Binary64.

(** * Dictionaries *)

Lemma getitem_Some {V} (d : gmap string V) k v : d !! k = Some v → getitem d k = Ok v.
Proof. unfold getitem. by intros ->. Qed.

Lemma getitem_Ok {V} (d : gmap string V) k v : getitem d k = Ok v → d !! k = Some v.
Proof. unfold getitem. by destruct (d !! k); intros [= ->]. Qed.

Lemma dict_get_Some {V} (d : gmap string V) k v dflt : d !! k = Some v → dict_get d k dflt = v.
Proof. unfold dict_get. by intros ->. Qed.

Lemma imul_Some d k x v : d !! k = Some v → imul d k x = Ok (<[k := v * x]> d).
Proof. unfold imul. intros H. by rewrite (getitem_Some _ _ _ H). Qed.

Lemma has_keys_lookup keys f k : has_keys keys f = true → In k keys → is_Some (f !! k).
Proof.
  unfold has_keys. rewrite forallb_forall. intros H Hk.
  apply H in Hk. by apply bool_decide_eq_true in Hk.
Qed.

Ltac key_of Hk k v H :=
  pose proof (has_keys_lookup _ _ k Hk ltac:(cbn; tauto)) as [v H].


Arguments IncinerationProcess.emissions_dict : simpl never.
Arguments PyrolysisProcess.emissions_dict : simpl never.

Section incineration_dict.
Variables a b c d e f g h x : Q.

Lemma inc_dict_pm10 : IncinerationProcess.emissions_dict a b c d e f g h !! "pm10" = Some e.
Proof. reflexivity. Qed.
Lemma inc_set_pm10 :
  <["pm10" := x]> (IncinerationProcess.emissions_dict a b c d e f g h) = IncinerationProcess.emissions_dict a b c d x f g h.
Proof. reflexivity. Qed.
Lemma inc_set_pm25 :
  <["pm25" := x]> (IncinerationProcess.emissions_dict a b c d e f g h) = IncinerationProcess.emissions_dict a b c d e x g h.
Proof. reflexivity. Qed.
Lemma inc_dom : dom (IncinerationProcess.emissions_dict a b c d e f g h) = {[ "co2_fossil"; "co2_biogenic"; "so2"; "nox"; "pm10"; "pm25"; "hg"; "pb" ]}.
Proof. reflexivity. Qed.
End incineration_dict.

(** What [scenario_adjust] returns when the three rescaled factors are in
    the table: they are rescaled, every other entry is as before. *)
Lemma scenario_adjust_lookup sc (f : Factors) :
  is_Some (f !! "pm10_per_organic") →
  is_Some (f !! "pm25_per_organic") →
  is_Some (f !! "nox_per_waste") →
  ∃ f', IncinerationProcess.scenario_adjust sc f = Ok f' ∧
    f' !! "pm10_per_organic" = flue_gas_scaled sc <$> f !! "pm10_per_organic" ∧
    f' !! "pm25_per_organic" = flue_gas_scaled sc <$> f !! "pm25_per_organic" ∧
    f' !! "nox_per_waste" = flue_gas_scaled sc <$> f !! "nox_per_waste" ∧
    ∀ k, k ≠ "pm10_per_organic" → k ≠ "pm25_per_organic" → k ≠ "nox_per_waste" →
         f' !! k = f !! k.
Proof.
  intros [v10 H10] [v25 H25] [vn Hn].
  unfold IncinerationProcess.scenario_adjust, flue_gas_scaled.
  destruct (scenario_value sc _) as [e|].
  - rewrite (imul_Some _ _ _ _ H10). cbn.
    rewrite (imul_Some _ _ _ v25) by by rewrite lookup_insert_ne.
    cbn. rewrite (imul_Some _ _ _ vn) by by rewrite !lookup_insert_ne.
    eexists; split; [done|]. rewrite H10, H25, Hn.
    split; [by rewrite !lookup_insert_ne, lookup_insert_eq by done|].
    split; [by rewrite lookup_insert_ne, lookup_insert_eq by done|].
    split; [by rewrite lookup_insert_eq|].
    intros k ???. by rewrite !lookup_insert_ne.
  - exists f. rewrite H10, H25, Hn. by repeat split.
Qed.

Lemma flue_gas_scaled_Some sc e v :
  scenario_value sc "incineration_flue_gas_efficiency" = Some e →
  flue_gas_scaled sc v = v * (1 - e).
Proof. unfold flue_gas_scaled. by intros ->. Qed.

Section incineration_dict2.
Variables a b c d e f g h : Q.
Lemma inc_dict_pm25 : IncinerationProcess.emissions_dict a b c d e f g h !! "pm25" = Some f.
Proof. reflexivity. Qed.
End incineration_dict2.

Lemma penalty_needs_key (f : Factors) :
  dict_get f "combustion_efficiency" 1.0 < 0.95 →
  f !! "combustion_efficiency" = Some (dict_get f "combustion_efficiency" 1.0).
Proof.
  unfold dict_get. destruct (f !! _); cbn; [done|]. intros H. by vm_compute in H.
Qed.

Lemma inc_closed_form (f : Factors) w sc :
  has_keys incineration_keys f = true →
  let c := composition w in
  let m := magnitude (to_kg (mass w)) in
  let en := IncinerationProcess.energy (to_kg (mass w)) (factor f "energy_content") in
  IncinerationProcess.calculate_direct_emissions f w sc = Ok (IncinerationProcess.emissions_dict
    (fossil_organic c * en * factor f "carbon_content_fossil" * (44 / 12))
    (biogenic_organic c * en * factor f "carbon_content_biogenic" * (44 / 12))
    (total_organic c * m * factor f "so2_conversion" * (64 / 32))
    (m * flue_gas_scaled sc (factor f "nox_per_waste"))
    (penalised f (m * total_organic c * flue_gas_scaled sc (factor f "pm10_per_organic")))
    (penalised f (m * total_organic c * flue_gas_scaled sc (factor f "pm25_per_organic")))
    (m * fraction c "heavy_metals_waste" "mercury_waste" * factor f "hg_volatilization")
    (m * fraction c "heavy_metals_waste" "other_heavy_metals" * factor f "pb_volatilization")).
Proof.
  intros Hk c m en. subst c m en.
  key_of Hk "energy_content" v1 H1.
  key_of Hk "carbon_content_fossil" v2 H2.
  key_of Hk "carbon_content_biogenic" v3 H3.
  key_of Hk "so2_conversion" v4 H4.
  key_of Hk "nox_per_waste" v5 H5.
  key_of Hk "pm10_per_organic" v6 H6.
  key_of Hk "pm25_per_organic" v7 H7.
  key_of Hk "hg_volatilization" v8 H8.
  key_of Hk "pb_volatilization" v9 H9.
  destruct (scenario_adjust_lookup sc f) as (f' & Hadj & Hf10 & Hf25 & Hfn & Hf');
    [by eexists..|].
  rewrite H6 in Hf10. rewrite H7 in Hf25. rewrite H5 in Hfn.
  change (f' !! "pm10_per_organic" = Some (flue_gas_scaled sc v6)) in Hf10.
  change (f' !! "pm25_per_organic" = Some (flue_gas_scaled sc v7)) in Hf25.
  change (f' !! "nox_per_waste" = Some (flue_gas_scaled sc v5)) in Hfn.
  unfold IncinerationProcess.calculate_direct_emissions. rewrite Hadj. cbn.
  unfold IncinerationProcess.formulas.
  rewrite (getitem_Some f' "energy_content" v1) by by rewrite Hf'.
  cbn. rewrite (getitem_Some f' "carbon_content_fossil" v2) by by rewrite Hf'.
  cbn. rewrite (getitem_Some f' "carbon_content_biogenic" v3) by by rewrite Hf'.
  cbn. rewrite (getitem_Some f' "so2_conversion" v4) by by rewrite Hf'.
  cbn. rewrite (getitem_Some _ _ _ Hfn).
  cbn. rewrite (getitem_Some _ _ _ Hf10).
  cbn. rewrite (getitem_Some _ _ _ Hf25).
  cbn. rewrite (getitem_Some f' "hg_volatilization" v8) by by rewrite Hf'.
  cbn. rewrite (getitem_Some f' "pb_volatilization" v9) by by rewrite Hf'.
  cbn. unfold factor.
  rewrite (dict_get_Some _ _ _ _ H1), (dict_get_Some _ _ _ _ H2), (dict_get_Some _ _ _ _ H3),
    (dict_get_Some _ _ _ _ H4), (dict_get_Some _ _ _ _ H5), (dict_get_Some _ _ _ _ H6),
    (dict_get_Some _ _ _ _ H7), (dict_get_Some _ _ _ _ H8), (dict_get_Some _ _ _ _ H9).
  assert (Hce : dict_get f' "combustion_efficiency" 1.0 = dict_get f "combustion_efficiency" 1.0).
  { unfold dict_get. by rewrite Hf'. }
  unfold IncinerationProcess.combustion_penalty, penalised. rewrite Hce.
  destruct (Qlt_le_dec _ _) as [Hlt|Hge]; [|done].
  rewrite (getitem_Some f' "combustion_efficiency" (dict_get f "combustion_efficiency" 1.0))
    by (rewrite Hf' by done; by apply penalty_needs_key).
  cbn. rewrite (imul_Some _ _ _ _ (inc_dict_pm10 _ _ _ _ _ _ _ _)), inc_set_pm10.
  cbn. by rewrite (imul_Some _ _ _ _ (inc_dict_pm25 _ _ _ _ _ _ _ _)), inc_set_pm25.
Qed.

Lemma pyr_closed_form (f : Factors) w sc :
  has_keys pyrolysis_keys f = true →
  let c := composition w in
  let m := magnitude (to_kg (mass w)) in
  PyrolysisProcess.calculate_direct_emissions f w sc = Ok (PyrolysisProcess.emissions_dict
    (m * total_organic c * factor f "co2_fossil_per_organic")
    (m * total_organic c * factor f "ch4_fossil_per_organic")
    (m * total_organic c * factor f "nmvoc_per_organic")
    (m * total_organic c * factor f "pahs_per_organic")
    (m * total_chlor c * factor f "dioxin_per_chlorinated")
    (m * fraction c "heavy_metals_waste" "mercury_waste" * factor f "hg_per_mercury")
    (m * fraction c "heavy_metals_waste" "other_heavy_metals" * factor f "pb_per_heavy_metal")).
Proof.
  intros Hk c m. subst c m.
  key_of Hk "co2_fossil_per_organic" v1 H1.
  key_of Hk "ch4_fossil_per_organic" v2 H2.
  key_of Hk "nmvoc_per_organic" v3 H3.
  key_of Hk "pahs_per_organic" v4 H4.
  key_of Hk "dioxin_per_chlorinated" v5 H5.
  key_of Hk "hg_per_mercury" v6 H6.
  key_of Hk "pb_per_heavy_metal" v7 H7.
  unfold PyrolysisProcess.calculate_direct_emissions, factor.
  rewrite (getitem_Some _ _ _ H1), (getitem_Some _ _ _ H2), (getitem_Some _ _ _ H3),
    (getitem_Some _ _ _ H4), (getitem_Some _ _ _ H5), (getitem_Some _ _ _ H6),
    (getitem_Some _ _ _ H7).
  by rewrite (dict_get_Some _ _ _ _ H1), (dict_get_Some _ _ _ _ H2), (dict_get_Some _ _ _ _ H3),
    (dict_get_Some _ _ _ _ H4), (dict_get_Some _ _ _ _ H5), (dict_get_Some _ _ _ _ H6),
    (dict_get_Some _ _ _ _ H7).
Qed.

Lemma bind_Ok_inv {A B} (m : Res A) (k : A → Res B) b :
  m ≫= k = Ok b → ∃ a, m = Ok a ∧ k a = Ok b.
Proof. destruct m; [eauto | done]. Qed.

Lemma has_keys_intro keys (f : Factors) :
  Forall (λ k, is_Some (f !! k)) keys → has_keys keys f = true.
Proof.
  unfold has_keys. rewrite Forall_forall, forallb_forall.
  intros H k Hk. apply bool_decide_eq_true, H. by apply list_elem_of_In.
Qed.

(** The calls return exactly when the subscripted factors are present. *)
Lemma formulas_Ok_keys (f : Factors) w em :
  IncinerationProcess.formulas f w = Ok em → has_keys incineration_keys f = true.
Proof.
  unfold IncinerationProcess.formulas. intros H.
  repeat (apply bind_Ok_inv in H as (? & ?%getitem_Ok & H)).
  apply has_keys_intro. repeat constructor; eauto.
Qed.

Lemma imul_Ok d k x d' :
  imul d k x = Ok d' → ∃ v, d !! k = Some v ∧ d' = <[k := v * x]> d.
Proof.
  unfold imul. intros (v & Hv%getitem_Ok & [= <-])%bind_Ok_inv. eauto.
Qed.

Lemma scenario_adjust_keys sc (f f' : Factors) k :
  IncinerationProcess.scenario_adjust sc f = Ok f' → is_Some (f' !! k) → is_Some (f !! k).
Proof.
  unfold IncinerationProcess.scenario_adjust. destruct (scenario_value sc _); [|by intros [= ->]].
  intros (f1 & (v1 & H1 & ->)%imul_Ok & H)%bind_Ok_inv.
  apply bind_Ok_inv in H as (f2 & (v2 & H2 & ->)%imul_Ok & H).
  apply imul_Ok in H as (v3 & H3 & ->).
  rewrite lookup_insert_ne in H2 by done. rewrite !lookup_insert_ne in H3 by done.
  rewrite !lookup_insert. repeat case_decide; subst; eauto.
Qed.

Lemma inc_Ok_keys (f : Factors) w sc em :
  IncinerationProcess.calculate_direct_emissions f w sc = Ok em → has_keys incineration_keys f = true.
Proof.
  unfold IncinerationProcess.calculate_direct_emissions.
  intros (f' & Hadj & H%formulas_Ok_keys)%bind_Ok_inv.
  apply has_keys_intro, Forall_forall. intros k Hk%list_elem_of_In.
  eapply scenario_adjust_keys; [done|]. by eapply has_keys_lookup.
Qed.

Lemma pyr_Ok_keys (f : Factors) w sc em :
  PyrolysisProcess.calculate_direct_emissions f w sc = Ok em → has_keys pyrolysis_keys f = true.
Proof.
  unfold PyrolysisProcess.calculate_direct_emissions. intros H.
  repeat (apply bind_Ok_inv in H as (? & ?%getitem_Ok & H)).
  apply has_keys_intro. repeat constructor; eauto.
Qed.

(** The calls return exactly when the factors they subscript are in the
    table. *)
Lemma incineration_returns_iff (f : Factors) w sc :
  (∃ em, IncinerationProcess.calculate_direct_emissions f w sc = Ok em)
  ↔ has_keys incineration_keys f = true.
Proof.
  split.
  - intros [em H]. by eapply inc_Ok_keys.
  - intros Hk. rewrite inc_closed_form by done. eauto.
Qed.

Lemma pyrolysis_returns_iff (f : Factors) w sc :
  (∃ em, PyrolysisProcess.calculate_direct_emissions f w sc = Ok em)
  ↔ has_keys pyrolysis_keys f = true.
Proof.
  split.
  - intros [em H]. by eapply pyr_Ok_keys.
  - intros Hk. rewrite pyr_closed_form by done. eauto.
Qed.

(** * The engine in binary64 *)

Section binary64.
Import PrimFloat.
#[local] Open Scope float_scope.
#[local] Set Warnings "-inexact-float".

Lemma b64_imul_Some (d : gmap string float) k x v :
  d !! k = Some v → Binary64.imul d k x = Ok (<[k := v * x]> d).
Proof. unfold Binary64.imul. intros H. by rewrite (getitem_Some _ _ _ H). Qed.

Lemma b64_has_keys_lookup keys (f : Binary64.Factors) k :
  Binary64.has_keys keys f = true → In k keys → is_Some (f !! k).
Proof.
  unfold Binary64.has_keys. rewrite forallb_forall. intros H Hk.
  apply H in Hk. by apply bool_decide_eq_true in Hk.
Qed.

Lemma b64_scenario_adjust_lookup sc (f : Binary64.Factors) :
  is_Some (f !! "pm10_per_organic") →
  is_Some (f !! "pm25_per_organic") →
  is_Some (f !! "nox_per_waste") →
  ∃ f', Binary64.IncinerationProcess.scenario_adjust sc f = Ok f' ∧
    f' !! "pm10_per_organic" = Binary64.flue_gas_scaled sc <$> f !! "pm10_per_organic" ∧
    f' !! "pm25_per_organic" = Binary64.flue_gas_scaled sc <$> f !! "pm25_per_organic" ∧
    f' !! "nox_per_waste" = Binary64.flue_gas_scaled sc <$> f !! "nox_per_waste" ∧
    ∀ k, k ≠ "pm10_per_organic" → k ≠ "pm25_per_organic" → k ≠ "nox_per_waste" →
         f' !! k = f !! k.
Proof.
  intros [v10 H10] [v25 H25] [vn Hn].
  unfold Binary64.IncinerationProcess.scenario_adjust, Binary64.flue_gas_scaled.
  destruct (Binary64.scenario_value sc _) as [e|].
  - rewrite (b64_imul_Some _ _ _ _ H10). cbn.
    rewrite (b64_imul_Some _ _ _ v25) by by rewrite lookup_insert_ne.
    cbn. rewrite (b64_imul_Some _ _ _ vn) by by rewrite !lookup_insert_ne.
    eexists; split; [done|]. rewrite H10, H25, Hn.
    split; [by rewrite !lookup_insert_ne, lookup_insert_eq by done|].
    split; [by rewrite lookup_insert_ne, lookup_insert_eq by done|].
    split; [by rewrite lookup_insert_eq|].
    intros k ???. by rewrite !lookup_insert_ne.
  - exists f. rewrite H10, H25, Hn. by repeat split.
Qed.

Lemma b64_penalty_needs_key (f : Binary64.Factors) :
  (dict_get f "combustion_efficiency" 1.0 <? 0.95) = true →
  f !! "combustion_efficiency" = Some (dict_get f "combustion_efficiency" 1.0).
Proof.
  unfold dict_get. destruct (f !! _); cbn; [done|]. intros H. by vm_compute in H.
Qed.

Lemma b64_inc_dict_pm10 a b c d e f g h :
  Binary64.IncinerationProcess.emissions_dict a b c d e f g h !! "pm10" = Some e.
Proof. reflexivity. Qed.

Lemma b64_inc_dict_pm25 a b c d e f g h :
  Binary64.IncinerationProcess.emissions_dict a b c d e f g h !! "pm25" = Some f.
Proof. reflexivity. Qed.

Lemma b64_inc_set_pm10 a b c d e f g h x :
  <["pm10" := x]> (Binary64.IncinerationProcess.emissions_dict a b c d e f g h)
  = Binary64.IncinerationProcess.emissions_dict a b c d x f g h.
Proof. reflexivity. Qed.

Lemma b64_inc_set_pm25 a b c d e f g h x :
  <["pm25" := x]> (Binary64.IncinerationProcess.emissions_dict a b c d e f g h)
  = Binary64.IncinerationProcess.emissions_dict a b c d e x g h.
Proof. reflexivity. Qed.

(** The result of incineration, for a table that has the nine factors the
    code subscripts. *)
Lemma b64_inc_closed_form (f : Binary64.Factors) w sc :
  Binary64.has_keys incineration_keys f = true →
  let c := Binary64.composition w in
  let m := Binary64.mass_kg w in
  let en := Binary64.IncinerationProcess.energy m (Binary64.factor f "energy_content") in
  Binary64.IncinerationProcess.calculate_direct_emissions f w sc
  = Ok (Binary64.IncinerationProcess.emissions_dict
    (Binary64.fossil_organic c * en * Binary64.factor f "carbon_content_fossil" * (44 / 12))
    (Binary64.biogenic_organic c * en * Binary64.factor f "carbon_content_biogenic" * (44 / 12))
    (Binary64.total_organic c * m * Binary64.factor f "so2_conversion" * (64 / 32))
    (m * Binary64.flue_gas_scaled sc (Binary64.factor f "nox_per_waste"))
    (Binary64.penalised f
       (m * Binary64.total_organic c
          * Binary64.flue_gas_scaled sc (Binary64.factor f "pm10_per_organic")))
    (Binary64.penalised f
       (m * Binary64.total_organic c
          * Binary64.flue_gas_scaled sc (Binary64.factor f "pm25_per_organic")))
    (m * Binary64.fraction c "heavy_metals_waste" "mercury_waste"
       * Binary64.factor f "hg_volatilization")
    (m * Binary64.fraction c "heavy_metals_waste" "other_heavy_metals"
       * Binary64.factor f "pb_volatilization")).
Proof.
  intros Hk c m en. subst c m en.
  pose proof (b64_has_keys_lookup _ _ "energy_content" Hk ltac:(cbn; tauto)) as [v1 H1].
  pose proof (b64_has_keys_lookup _ _ "carbon_content_fossil" Hk ltac:(cbn; tauto)) as [v2 H2].
  pose proof (b64_has_keys_lookup _ _ "carbon_content_biogenic" Hk ltac:(cbn; tauto)) as [v3 H3].
  pose proof (b64_has_keys_lookup _ _ "so2_conversion" Hk ltac:(cbn; tauto)) as [v4 H4].
  pose proof (b64_has_keys_lookup _ _ "nox_per_waste" Hk ltac:(cbn; tauto)) as [v5 H5].
  pose proof (b64_has_keys_lookup _ _ "pm10_per_organic" Hk ltac:(cbn; tauto)) as [v6 H6].
  pose proof (b64_has_keys_lookup _ _ "pm25_per_organic" Hk ltac:(cbn; tauto)) as [v7 H7].
  pose proof (b64_has_keys_lookup _ _ "hg_volatilization" Hk ltac:(cbn; tauto)) as [v8 H8].
  pose proof (b64_has_keys_lookup _ _ "pb_volatilization" Hk ltac:(cbn; tauto)) as [v9 H9].
  destruct (b64_scenario_adjust_lookup sc f) as (f' & Hadj & Hf10 & Hf25 & Hfn & Hf');
    [by eexists..|].
  rewrite H6 in Hf10. rewrite H7 in Hf25. rewrite H5 in Hfn.
  change (f' !! "pm10_per_organic" = Some (Binary64.flue_gas_scaled sc v6)) in Hf10.
  change (f' !! "pm25_per_organic" = Some (Binary64.flue_gas_scaled sc v7)) in Hf25.
  change (f' !! "nox_per_waste" = Some (Binary64.flue_gas_scaled sc v5)) in Hfn.
  unfold Binary64.IncinerationProcess.calculate_direct_emissions. rewrite Hadj.
  cbn [mbind Res_bind].
  unfold Binary64.IncinerationProcess.formulas.
  rewrite (getitem_Some f' "energy_content" v1) by by rewrite Hf'.
  cbn [mbind Res_bind].
  rewrite (getitem_Some f' "carbon_content_fossil" v2) by by rewrite Hf'.
  cbn [mbind Res_bind].
  rewrite (getitem_Some f' "carbon_content_biogenic" v3) by by rewrite Hf'.
  cbn [mbind Res_bind].
  rewrite (getitem_Some f' "so2_conversion" v4) by by rewrite Hf'.
  cbn [mbind Res_bind]. rewrite (getitem_Some _ _ _ Hfn).
  cbn [mbind Res_bind]. rewrite (getitem_Some _ _ _ Hf10).
  cbn [mbind Res_bind]. rewrite (getitem_Some _ _ _ Hf25).
  cbn [mbind Res_bind].
  rewrite (getitem_Some f' "hg_volatilization" v8) by by rewrite Hf'.
  cbn [mbind Res_bind].
  rewrite (getitem_Some f' "pb_volatilization" v9) by by rewrite Hf'.
  cbn [mbind Res_bind]. unfold Binary64.factor.
  rewrite (dict_get_Some _ _ _ _ H1), (dict_get_Some _ _ _ _ H2), (dict_get_Some _ _ _ _ H3),
    (dict_get_Some _ _ _ _ H4), (dict_get_Some _ _ _ _ H5), (dict_get_Some _ _ _ _ H6),
    (dict_get_Some _ _ _ _ H7), (dict_get_Some _ _ _ _ H8), (dict_get_Some _ _ _ _ H9).
  assert (Hce : dict_get f' "combustion_efficiency" 1.0 = dict_get f "combustion_efficiency" 1.0).
  { unfold dict_get. by rewrite Hf'. }
  unfold Binary64.IncinerationProcess.combustion_penalty, Binary64.penalised.
  rewrite Hce.
  destruct (dict_get f "combustion_efficiency" 1.0 <? 0.95) eqn:Hlt; [|done].
  rewrite (getitem_Some f' "combustion_efficiency" (dict_get f "combustion_efficiency" 1.0))
    by (rewrite Hf' by done; by apply b64_penalty_needs_key).
  cbn [mbind Res_bind].
  rewrite (b64_imul_Some _ _ _ _ (b64_inc_dict_pm10 _ _ _ _ _ _ _ _)), b64_inc_set_pm10.
  cbn [mbind Res_bind].
  by rewrite (b64_imul_Some _ _ _ _ (b64_inc_dict_pm25 _ _ _ _ _ _ _ _)), b64_inc_set_pm25.
Qed.

Lemma b64_has_keys_insert keys (f : Binary64.Factors) k v :
  Binary64.has_keys keys f = true → Binary64.has_keys keys (<[k := v]> f) = true.
Proof.
  unfold Binary64.has_keys. rewrite !forallb_forall. intros Hk k' Hin.
  apply bool_decide_eq_true. rewrite lookup_insert. case_decide; [by eexists|].
  apply Hk in Hin. by apply bool_decide_eq_true in Hin.
Qed.

Lemma b64_factor_insert_ne (f : Binary64.Factors) k k' v :
  k ≠ k' → Binary64.factor (<[k := v]> f) k' = Binary64.factor f k'.
Proof. intros Hne. unfold Binary64.factor, dict_get. by rewrite lookup_insert_ne. Qed.

Lemma b64_penalised_at (f : Binary64.Factors) ce v :
  f !! "combustion_efficiency" = Some ce →
  Binary64.penalised f v = if ce <? 0.95 then v * (1 + (0.95 - ce) * 2) else v.
Proof. intros Hce. unfold Binary64.penalised. by rewrite (dict_get_Some _ _ _ _ Hce). Qed.

(** [to_Q] on numbers that are written exactly in binary, and on the two
    that stand for no rational. *)
Example to_Q_examples :
  Binary64.near 0.75 0.75 0 ∧ Binary64.near (-2.5) (-2.5) 0 ∧
  Binary64.near 0 0 0 ∧ Binary64.near 1e22 1e22 0 ∧
  Binary64.to_Q infinity = None ∧ Binary64.to_Q nan = None.
Proof.
  repeat split; try reflexivity;
    (eexists; split; [vm_compute; reflexivity | by vm_compute]).
Qed.

Lemma b64_near_intro x q eps v :
  Binary64.to_Q x = Some v → Qle_bool (Qabs (v - q)) eps = true → Binary64.near x q eps.
Proof. intros Hv Hle. exists v. split; [exact Hv|]. by apply Qle_bool_iff. Qed.

Lemma b64_flue_gas_scaled_Some (d : Binary64.Scenario) e v :
  d !! "incineration_flue_gas_efficiency" = Some e →
  Binary64.flue_gas_scaled (Some d) v = v * (1 - e).
Proof. unfold Binary64.flue_gas_scaled, Binary64.scenario_value. by intros ->. Qed.

End binary64.

(** * The claims *)

Section binary64_default_case.
Import PrimFloat.
#[local] Open Scope float_scope.
#[local] Set Warnings "-inexact-float".

(** C1.  A stream of 100 kg with the default composition, incinerated with
    the default factor table, as the code computes it in binary64.  The
    total organic fraction is the seven-term sum, 0.9070000000000001, within
    1e-15 of 0.907; the fossil part is 0.02; the biogenic part is
    0.8870000000000001, within 1e-15 of 0.887; the energy is 530 kWh.  The
    call returns [co2_fossil = 3.7700666666666667], within 1e-14 of
    [0.02 * 530 * 0.097 * 44/12] and about 3.77 kg;
    [co2_biogenic = 93.08178000000001], within 1e-12 of
    [0.887 * 530 * 0.054 * 44/12] and about 93.1 kg; and
    [nox = 100 * 4.3e-6 = 0.00043000000000000004], within 1e-18 of 4.3e-4
    kg. *)
Theorem default_incineration_case :
  let w := Binary64.default_stream 100 in
  let c := Binary64.composition w in
  Binary64.total_organic c = 0.65 + 0.12 + 0.06 + 0.04 + 0.015 + 0.002 + 0.02 ∧
  Binary64.total_organic c = 0.9070000000000001 ∧
  Binary64.near (Binary64.total_organic c) 0.907 1e-15 ∧
  Binary64.fossil_organic c = 0.02 ∧
  Binary64.biogenic_organic c = 0.8870000000000001 ∧
  Binary64.near (Binary64.biogenic_organic c) 0.887 1e-15 ∧
  Binary64.IncinerationProcess.energy (Binary64.mass_kg w)
    (Binary64.factor Binary64.config.INCINERATION "energy_content") = 530 ∧
  ∃ em co2_fossil co2_biogenic nox,
    Binary64.IncinerationProcess.calculate_direct_emissions
      Binary64.config.INCINERATION w None = Ok em ∧
    em !! "co2_fossil" = Some co2_fossil ∧
    em !! "co2_biogenic" = Some co2_biogenic ∧
    em !! "nox" = Some nox ∧
    co2_fossil = 3.7700666666666667 ∧
    Binary64.near co2_fossil (0.02 * 530 * 0.097 * (44 / 12)) 1e-14 ∧
    Binary64.near co2_fossil 3.77 0.005 ∧
    co2_biogenic = 93.08178000000001 ∧
    Binary64.near co2_biogenic (0.887 * 530 * 0.054 * (44 / 12)) 1e-12 ∧
    Binary64.near co2_biogenic 93.1 0.05 ∧
    nox = 100 * 4.3e-6 ∧
    nox = 0.00043000000000000004 ∧
    Binary64.near nox 4.3e-4 1e-18.
Proof.
  cbv zeta.
  rewrite b64_inc_closed_form by reflexivity.
  repeat lazymatch goal with
  | |- _ ∧ _ => split
  | |- Binary64.near _ _ _ => eapply b64_near_intro; vm_compute; reflexivity
  | |- ∃ _, _ => eexists
  | |- Ok _ = Ok _ => reflexivity
  | |- _ !! _ = Some _ => reflexivity
  | |- _ = _ => vm_compute; reflexivity
  end.
Qed.

(** The claim of C1 fails as it is written: the total organic fraction the
    code computes is not the float 0.907, the biogenic part is not 0.887 and
    the returned [nox] is not 4.3e-4 ([=?] is the comparison [==] of
    floats). *)
Lemma default_incineration_counterexample :
  let w := Binary64.default_stream 100 in
  let c := Binary64.composition w in
  (Binary64.total_organic c =? 0.907) = false ∧
  (Binary64.biogenic_organic c =? 0.887) = false ∧
  ∃ em nox,
    Binary64.IncinerationProcess.calculate_direct_emissions
      Binary64.config.INCINERATION w None = Ok em ∧
    em !! "nox" = Some nox ∧
    (nox =? 4.3e-4) = false.
Proof.
  cbv zeta. split; [by vm_compute|]. split; [by vm_compute|].
  rewrite b64_inc_closed_form by reflexivity.
  eexists _, _. split; [reflexivity|].
  split; [reflexivity|]. by vm_compute.
Qed.

End binary64_default_case.

(** * Segregation *)

Lemma fraction_entry c cat sub : fraction c cat sub = default 0 (entry c cat sub).
Proof. reflexivity. Qed.

Lemma entry_scale_if_present cat sub k (c : Composition) cat' sub' :
  entry (scale_if_present cat sub k c) cat' sub' =
    if decide (cat = cat' ∧ sub = sub')
    then (λ x, x * k) <$> entry c cat sub
    else entry c cat' sub'.
Proof.
  unfold scale_if_present. fold (entry c cat sub).
  destruct (entry c cat sub) as [x|] eqn:Hx.
  - unfold entry, dict_get in *. rewrite lookup_insert.
    case_decide as Hcat; cbn.
    + subst cat'. rewrite lookup_insert.
      case_decide as Hsub.
      * subst. by rewrite decide_True.
      * by rewrite decide_False by (intros [_ ?]; done).
    + by rewrite decide_False by (intros [? _]; done).
  - case_decide as H; [|done]. destruct H as [<- <-]. by rewrite Hx.
Qed.

Lemma entry_adjust w e cat sub :
  In (cat, sub) hazardous_entries →
  entry (composition (adjust_for_segregation w e)) cat sub =
    (λ x, x * (1 - e)) <$> entry (composition w) cat sub.
Proof.
  unfold adjust_for_segregation; cbn.
  intros [[= <- <-]|[[= <- <-]|[[= <- <-]|[]]]]; rewrite !entry_scale_if_present.
  all: repeat (case_decide; destruct_and?; simplify_eq); try done.
  all: exfalso; auto.
Qed.

Section binary64_segregation.
Import PrimFloat.
#[local] Open Scope float_scope.
#[local] Set Warnings "-inexact-float".






End binary64_segregation.

(** * Zero organic fraction *)









(** * Scaling the mass *)

Section dict_pointwise.
Variable R : Q → Q → Prop.

Lemma inc_dict_pointwise a b c d e f g h a' b' c' d' e' f' g' h' :
  R a a' → R b b' → R c c' → R d d' → R e e' → R f f' → R g g' → R h h' →
  ∀ k, option_Forall2 R (IncinerationProcess.emissions_dict a b c d e f g h !! k)
                        (IncinerationProcess.emissions_dict a' b' c' d' e' f' g' h' !! k).
Proof.
  intros. unfold IncinerationProcess.emissions_dict. cbn [list_to_map foldr uncurry fst snd].
  rewrite !lookup_insert, !lookup_empty.
  repeat case_decide; by constructor.
Qed.

End dict_pointwise.


Lemma penalised_Qeq f v v' : v == v' → penalised f v == penalised f v'.
Proof. unfold penalised. intros H. destruct (Qlt_le_dec _ _); by rewrite H. Qed.








(** * Flue-gas cleaning and the combustion penalty *)



Section binary64_penalty.
Import PrimFloat.
#[local] Open Scope float_scope.
#[local] Set Warnings "-inexact-float".

(** The claim of C6 fails as it is written: the penalty computed for
    [combustion_efficiency = 0.90] is not the float 0.1, the multiplier is
    not 1.1, and on the default stream of 100 kg the returned [pm10] and
    [pm25] are not 1.1 times the ones returned for 0.95. *)
Lemma combustion_penalty_counterexample :
  let w := Binary64.default_stream 100 in
  let f95 := <["combustion_efficiency" := 0.95]> Binary64.config.INCINERATION in
  let f90 := <["combustion_efficiency" := 0.90]> Binary64.config.INCINERATION in
  ((0.95 - 0.90) * 2 =? 0.1) = false ∧
  (1 + (0.95 - 0.90) * 2 =? 1.1) = false ∧
  ∃ em95 em90 pm10 pm10' pm25 pm25',
    Binary64.IncinerationProcess.calculate_direct_emissions f95 w None = Ok em95 ∧
    Binary64.IncinerationProcess.calculate_direct_emissions f90 w None = Ok em90 ∧
    em95 !! "pm10" = Some pm10 ∧ em90 !! "pm10" = Some pm10' ∧
    em95 !! "pm25" = Some pm25 ∧ em90 !! "pm25" = Some pm25' ∧
    (pm10' =? pm10 * 1.1) = false ∧
    (pm25' =? pm25 * 1.1) = false.
Proof.
  cbv zeta. split; [by vm_compute|]. split; [by vm_compute|].
  rewrite !b64_inc_closed_form by reflexivity.
  eexists _, _, _, _, _, _. split; [reflexivity|]. split; [reflexivity|].
  split; [reflexivity|]. split; [reflexivity|].
  split; [reflexivity|]. split; [reflexivity|].
  split; by vm_compute.
Qed.

(** C6.  With [combustion_efficiency = 0.95] in the factor set, the penalty
    step changes nothing and [pm10], [pm25] are the values of the formulas.
    With [combustion_efficiency = 0.90] the penalty the code computes is
    [(0.95 - 0.90) * 2 = 0.09999999999999987], within 1e-15 of 0.1, and
    [pm10], [pm25] are those values multiplied by
    [1 + penalty = 1.0999999999999999], within 1e-15 of 1.1. *)
Theorem combustion_penalty_boundary (f : Binary64.Factors) (w : Binary64.WasteStream)
    (sc : option Binary64.Scenario) :
  Binary64.has_keys incineration_keys f = true →
  let f95 := <["combustion_efficiency" := 0.95]> f in
  let f90 := <["combustion_efficiency" := 0.90]> f in
  let m := Binary64.mass_kg w in
  let pm10 := m * Binary64.total_organic (Binary64.composition w)
                * Binary64.flue_gas_scaled sc (Binary64.factor f "pm10_per_organic") in
  let pm25 := m * Binary64.total_organic (Binary64.composition w)
                * Binary64.flue_gas_scaled sc (Binary64.factor f "pm25_per_organic") in
  (∀ em, Binary64.IncinerationProcess.combustion_penalty f95 em = Ok em) ∧
  (∃ em, Binary64.IncinerationProcess.calculate_direct_emissions f95 w sc = Ok em ∧
     em !! "pm10" = Some pm10 ∧ em !! "pm25" = Some pm25) ∧
  (0.95 - 0.90) * 2 = 0.09999999999999987 ∧
  1 + 0.09999999999999987 = 1.0999999999999999 ∧
  Binary64.near 0.09999999999999987 0.1 1e-15 ∧
  Binary64.near 1.0999999999999999 1.1 1e-15 ∧
  (∃ em, Binary64.IncinerationProcess.calculate_direct_emissions f90 w sc = Ok em ∧
     em !! "pm10" = Some (pm10 * 1.0999999999999999) ∧
     em !! "pm25" = Some (pm25 * 1.0999999999999999)).
Proof.
  intros Hk f95 f90 m pm10 pm25. subst f95 f90 m pm10 pm25.
  split.
  { intros em. unfold Binary64.IncinerationProcess.combustion_penalty.
    by rewrite (dict_get_Some _ _ 0.95 _ (lookup_insert_eq _ _ _)). }
  split.
  { rewrite b64_inc_closed_form by by apply b64_has_keys_insert.
    eexists; split; [done|].
    rewrite !(b64_penalised_at _ 0.95) by apply lookup_insert_eq.
    rewrite !b64_factor_insert_ne by done. by split. }
  split; [vm_compute; reflexivity|]. split; [vm_compute; reflexivity|].
  split; [eapply b64_near_intro; vm_compute; reflexivity|].
  split; [eapply b64_near_intro; vm_compute; reflexivity|].
  rewrite b64_inc_closed_form by by apply b64_has_keys_insert.
  eexists; split; [done|].
  rewrite !(b64_penalised_at _ 0.90) by apply lookup_insert_eq.
  rewrite !b64_factor_insert_ne by done. by split.
Qed.

Lemma combustion_penalty_boundary_witness :
  let w := Binary64.default_stream 100 in
  let f95 := <["combustion_efficiency" := 0.95]> Binary64.config.INCINERATION in
  let f90 := <["combustion_efficiency" := 0.90]> Binary64.config.INCINERATION in
  let pm10 := 100 * 0.9070000000000001 * 0.000031 in
  let pm25 := 100 * 0.9070000000000001 * 0.0000217 in
  Binary64.has_keys incineration_keys Binary64.config.INCINERATION = true ∧
  (∃ em, Binary64.IncinerationProcess.calculate_direct_emissions f95 w None = Ok em ∧
     em !! "pm10" = Some pm10 ∧ em !! "pm25" = Some pm25) ∧
  (∃ em, Binary64.IncinerationProcess.calculate_direct_emissions f90 w None = Ok em ∧
     em !! "pm10" = Some (pm10 * 1.0999999999999999) ∧
     em !! "pm25" = Some (pm25 * 1.0999999999999999)).
Proof.
  cbv zeta.
  assert (Hk : Binary64.has_keys incineration_keys Binary64.config.INCINERATION = true)
    by reflexivity.
  split; [exact Hk|].
  destruct (combustion_penalty_boundary Binary64.config.INCINERATION
              (Binary64.default_stream 100) None Hk)
    as (_ & H95 & _ & _ & _ & _ & H90).
  split; [exact H95 | exact H90].
Defined.

End binary64_penalty.

Section binary64_composition.
Import PrimFloat.
#[local] Open Scope float_scope.
#[local] Set Warnings "-inexact-float".

(** The claim of C7 fails as it is written: on the default stream of
    100 kg, with [combustion_efficiency = 0.90] and a flue-gas efficiency of
    0.1, the returned [pm10] is 0.0027835830000000001, and the base value
    (the [pm10] returned with no scenario and no penalty) multiplied by
    [1 - 0.1] and by [1 + penalty] is 0.0027835830000000005. *)
Lemma flue_gas_and_penalty_counterexample :
  let w := Binary64.default_stream 100 in
  let f := <["combustion_efficiency" := 0.90]> Binary64.config.INCINERATION in
  let d : Binary64.Scenario := {[ "incineration_flue_gas_efficiency" := 0.1 ]} in
  let penalty := (0.95 - 0.90) * 2 in
  ∃ em0 base em pm10,
    Binary64.IncinerationProcess.calculate_direct_emissions
      Binary64.config.INCINERATION w None = Ok em0 ∧
    em0 !! "pm10" = Some base ∧
    Binary64.IncinerationProcess.calculate_direct_emissions f w (Some d) = Ok em ∧
    em !! "pm10" = Some pm10 ∧
    pm10 = 0.0027835830000000001 ∧
    base * (1 - 0.1) * (1 + penalty) = 0.0027835830000000005 ∧
    (pm10 =? base * (1 - 0.1) * (1 + penalty)) = false.
Proof.
  cbv zeta. rewrite !b64_inc_closed_form by reflexivity.
  eexists _, _, _, _. split; [reflexivity|]. split; [reflexivity|].
  split; [reflexivity|]. split; [reflexivity|].
  split; [vm_compute; reflexivity|]. split; [vm_compute; reflexivity|]. by vm_compute.
Qed.

(** C7.  When the scenario gives a flue-gas cleaning efficiency [e] and the
    factor set has [combustion_efficiency < 0.95], the returned [pm10] is
    [mass * total_organic * (pm10_per_organic * (1 - e)) * (1 + penalty)],
    every operation rounded to binary64 and taken in this order: the factor
    is rescaled on the copy before the formula, the penalty multiplies the
    value of the formula, and neither replaces the other; likewise [pm25].
    As rational numbers, without rounding, this is the base value
    [mass * total_organic * pm10_per_organic] multiplied by [1 - e] and by
    [1 + penalty]. *)
Theorem flue_gas_and_penalty_compose (f : Binary64.Factors) (w : Binary64.WasteStream)
    (d : Binary64.Scenario) (e ce : float) :
  Binary64.has_keys incineration_keys f = true →
  d !! "incineration_flue_gas_efficiency" = Some e →
  f !! "combustion_efficiency" = Some ce →
  (ce <? 0.95) = true →
  let m := Binary64.mass_kg w in
  let total_organic := Binary64.total_organic (Binary64.composition w) in
  let penalty := (0.95 - ce) * 2 in
  (∃ em, Binary64.IncinerationProcess.calculate_direct_emissions f w (Some d) = Ok em ∧
     em !! "pm10"
       = Some (m * total_organic * (Binary64.factor f "pm10_per_organic" * (1 - e))
                 * (1 + penalty)) ∧
     em !! "pm25"
       = Some (m * total_organic * (Binary64.factor f "pm25_per_organic" * (1 - e))
                 * (1 + penalty))) ∧
  ∀ m t p q pen : Q,
    (m * t * (p * (1 - q)) * (1 + pen) == m * t * p * (1 - q) * (1 + pen))%Q.
Proof.
  intros Hk Hd Hce Hlt m total_organic penalty. subst m total_organic penalty.
  split; [|intros; ring].
  rewrite b64_inc_closed_form by done. eexists; split; [done|].
  rewrite !(b64_penalised_at _ ce) by done. rewrite Hlt.
  rewrite !(b64_flue_gas_scaled_Some _ e) by done. by split.
Qed.

Lemma flue_gas_and_penalty_witness :
  let w := Binary64.default_stream 100 in
  let f := <["combustion_efficiency" := 0.90]> Binary64.config.INCINERATION in
  let d : Binary64.Scenario := {[ "incineration_flue_gas_efficiency" := 0.5 ]} in
  Binary64.has_keys incineration_keys f = true ∧
  d !! "incineration_flue_gas_efficiency" = Some 0.5 ∧
  f !! "combustion_efficiency" = Some 0.90 ∧
  (0.90 <? 0.95) = true ∧
  ∃ em, Binary64.IncinerationProcess.calculate_direct_emissions f w (Some d) = Ok em ∧
    em !! "pm10"
      = Some (100 * 0.9070000000000001 * (0.000031 * (1 - 0.5))
                * (1 + (0.95 - 0.90) * 2)) ∧
    em !! "pm25"
      = Some (100 * 0.9070000000000001 * (0.0000217 * (1 - 0.5))
                * (1 + (0.95 - 0.90) * 2)).
Proof.
  intros w f d.
  assert (Hk : Binary64.has_keys incineration_keys f = true) by reflexivity.
  assert (Hd : d !! "incineration_flue_gas_efficiency" = Some 0.5) by reflexivity.
  assert (Hce : f !! "combustion_efficiency" = Some 0.90) by reflexivity.
  assert (Hlt : (0.90 <? 0.95) = true) by reflexivity.
  split; [exact Hk|]. split; [exact Hd|]. split; [exact Hce|]. split; [exact Hlt|].
  exact (proj1 (flue_gas_and_penalty_compose f w d 0.5 0.90 Hk Hd Hce Hlt)).
Defined.

End binary64_composition.

(** * Missing composition entries *)

Lemma entry_zero_if_missing cs (c : Composition) cat sub :
  entry (zero_if_missing cs c) cat sub =
    if decide (cs.1 = cat ∧ cs.2 = sub)
    then Some (fraction c cat sub)
    else entry c cat sub.
Proof.
  destruct cs as [cat0 sub0]. unfold zero_if_missing. cbn [fst snd].
  rewrite fraction_entry.
  destruct (entry c cat0 sub0) as [x|] eqn:Hx.
  - case_decide as H; [|done]. destruct H as [<- <-]. by rewrite Hx.
  - unfold entry, dict_get in *. rewrite lookup_insert.
    case_decide as Hcat; cbn.
    + subst cat. rewrite lookup_insert. case_decide as Hsub.
      * subst. rewrite decide_True by done. by rewrite Hx.
      * by rewrite decide_False by (intros [_ ?]; done).
    + by rewrite decide_False by (intros [? _]; done).
Qed.

Lemma fraction_zero_if_missing cs c cat sub :
  fraction (zero_if_missing cs c) cat sub = fraction c cat sub.
Proof.
  rewrite !fraction_entry, entry_zero_if_missing.
  case_decide; [|done]. by rewrite fraction_entry.
Qed.

Lemma fraction_explicit_zeros l c cat sub :
  fraction (foldr zero_if_missing c l) cat sub = fraction c cat sub.
Proof.
  induction l as [|cs l IH]; [done|]. cbn [foldr].
  by rewrite fraction_zero_if_missing.
Qed.

Lemma entry_explicit_zeros l c cs :
  In cs l → is_Some (entry (foldr zero_if_missing c l) cs.1 cs.2).
Proof.
  induction l as [|cs' l IH]; [done|]. cbn [foldr].
  intros Hin. rewrite entry_zero_if_missing. case_decide as Hd; [by eexists|].
  destruct Hin as [->|Hin]; [|by apply IH]. by destruct Hd.
Qed.

Lemma incineration_explicit_zeros f w sc :
  IncinerationProcess.calculate_direct_emissions f (with_explicit_zeros w) sc =
  IncinerationProcess.calculate_direct_emissions f w sc.
Proof.
  unfold IncinerationProcess.calculate_direct_emissions, IncinerationProcess.formulas,
    total_organic, fossil_organic, with_explicit_zeros.
  cbn [composition mass]. by rewrite !fraction_explicit_zeros.
Qed.

Lemma pyrolysis_explicit_zeros f w sc :
  PyrolysisProcess.calculate_direct_emissions f (with_explicit_zeros w) sc =
  PyrolysisProcess.calculate_direct_emissions f w sc.
Proof.
  unfold PyrolysisProcess.calculate_direct_emissions, total_organic, total_chlor, with_explicit_zeros.
  cbn [composition mass]. by rewrite !fraction_explicit_zeros.
Qed.

(** C8.  Whatever categories or subcategories the composition of a stream
    omits (all of them, for the empty composition), incineration and
    pyrolysis return a result and raise nothing, and the result is the one
    obtained when every omitted entry the formulas read is written out with
    fraction 0. *)
Theorem missing_entries_count_as_zero (fi fp : Factors) (w : WasteStream)
    (sc : option Scenario) :
  has_keys incineration_keys fi = true →
  has_keys pyrolysis_keys fp = true →
  (∃ em, IncinerationProcess.calculate_direct_emissions fi w sc = Ok em) ∧
  (∃ em, PyrolysisProcess.calculate_direct_emissions fp w sc = Ok em) ∧
  Forall (λ cs, is_Some (entry (composition (with_explicit_zeros w)) cs.1 cs.2) ∧
                (entry (composition w) cs.1 cs.2 = None →
                 entry (composition (with_explicit_zeros w)) cs.1 cs.2 = Some 0))
         read_entries ∧
  IncinerationProcess.calculate_direct_emissions fi w sc =
    IncinerationProcess.calculate_direct_emissions fi (with_explicit_zeros w) sc ∧
  PyrolysisProcess.calculate_direct_emissions fp w sc =
    PyrolysisProcess.calculate_direct_emissions fp (with_explicit_zeros w) sc.
Proof.
  intros Hi Hp. split; [|split; [|split; [|split]]].
  - rewrite inc_closed_form by done. eauto.
  - rewrite pyr_closed_form by done. eauto.
  - apply Forall_forall. intros cs Hin%list_elem_of_In.
    pose proof (entry_explicit_zeros read_entries (composition w) cs Hin) as [x Hx].
    split; [by eexists|]. intros Hnone.
    cbn [with_explicit_zeros composition]. rewrite Hx. f_equal.
    change x with (default 0 (Some x)). rewrite <- Hx.
    rewrite <- fraction_entry, fraction_explicit_zeros, fraction_entry. by rewrite Hnone.
  - by rewrite incineration_explicit_zeros.
  - by rewrite pyrolysis_explicit_zeros.
Qed.

Lemma missing_entries_witness :
  let w := {| mass := {| magnitude := 3; unit := metric_ton |}; composition := ∅ |} in
  has_keys incineration_keys config.INCINERATION = true ∧
  has_keys pyrolysis_keys config.PYROLYSIS = true ∧
  (∃ em, IncinerationProcess.calculate_direct_emissions
           config.INCINERATION w None = Ok em) ∧
  (∃ em, PyrolysisProcess.calculate_direct_emissions
           config.PYROLYSIS w None = Ok em) ∧
  Forall (λ cs, entry (composition w) cs.1 cs.2 = None ∧
                entry (composition (with_explicit_zeros w)) cs.1 cs.2 = Some 0)
         read_entries.
Proof.
  cbv zeta. split; [reflexivity|]. split; [reflexivity|].
  destruct (missing_entries_count_as_zero config.INCINERATION config.PYROLYSIS
              {| mass := {| magnitude := 3; unit := metric_ton |}; composition := ∅ |}
              None eq_refl eq_refl) as (Hi & Hp & Hz & _).
  split; [exact Hi|]. split; [exact Hp|].
  eapply Forall_impl; [exact Hz|]. intros cs [_ H].
  assert (Hnone : entry (∅ : Composition) cs.1 cs.2 = None) by reflexivity.
  split; [exact Hnone | exact (H Hnone)].
Defined.

(** * The calls on the store *)

Lemma St_bind_unfold {A B} (m : St A) (k : A → St B) h :
  (m ≫= k) h = match m h with
               | (Ok a, h') => k a h'
               | (Raise e, h') => (Raise e, h')
               end.
Proof. reflexivity. Qed.

Lemma keeps_bind {A B} h0 (m : St A) (k : A → St B) :
  keeps h0 m → (∀ a, keeps h0 (k a)) → keeps h0 (m ≫= k).
Proof.
  intros Hm Hk h Hh. rewrite St_bind_unfold.
  specialize (Hm h Hh). destruct (m h) as [[a|e] h']; cbn in *; [|done].
  by apply Hk.
Qed.

Lemma keeps_ret {A} h0 (a : A) : keeps h0 (mret a).
Proof. by intros h Hh. Qed.

Lemma keeps_lift {A} h0 (r : Res A) : keeps h0 (lift r).
Proof. by intros h Hh. Qed.

Lemma keeps_load_dict h0 l : keeps h0 (load_dict l).
Proof. intros h Hh. unfold load_dict. by destruct (h !! l) as [[]|]. Qed.

Lemma keeps_load_waste h0 l : keeps h0 (load_waste l).
Proof. intros h Hh. unfold load_waste. by destruct (h !! l) as [[]|]. Qed.

Lemma keeps_store_imul h0 l k x : h0 !! l = None → keeps h0 (store_imul l k x).
Proof.
  intros Hl h Hh. unfold store_imul.
  destruct (h !! l) as [[d|]|]; try done.
  destruct (imul d k x); cbn; [|done]. by apply insert_subseteq_r.
Qed.

Lemma fresh_loc_None (h : Store) : h !! fresh (dom h) = None.
Proof. apply not_elem_of_dom, is_fresh. Qed.

Lemma incineration_keeps_store self waste sc h :
  h ⊆ (OnStore.incineration self waste sc h).2.
Proof.
  unfold OnStore.incineration. rewrite St_bind_unfold. unfold deepcopy.
  destruct (h !! self) as [o|]; [|done].
  pose proof (fresh_loc_None h) as Hfresh. cbn zeta.
  set (f := fresh (dom h)) in *.
  assert (Hsub : h ⊆ <[f := o]> h) by by apply insert_subseteq.
  revert Hsub. generalize (<[f := o]> h). apply keeps_bind.
  - destruct (scenario_value sc _).
    + repeat (apply keeps_bind; [by apply keeps_store_imul | intros _]).
      by apply keeps_store_imul.
    + apply keeps_ret.
  - intros _. apply keeps_bind; [apply keeps_load_waste | intros w].
    apply keeps_bind; [apply keeps_load_dict | intros d]. apply keeps_lift.
Qed.

Lemma pyrolysis_store_unchanged self waste sc h :
  (OnStore.pyrolysis self waste sc h).2 = h.
Proof.
  unfold OnStore.pyrolysis. rewrite St_bind_unfold. unfold load_waste.
  destruct (h !! waste) as [[|w]|]; try done.
  rewrite St_bind_unfold. unfold load_dict. by destruct (h !! self) as [[]|].
Qed.

(** The calls on the store return what the functions of the factor set,
    the stream and the scenario return. *)
Lemma pyrolysis_on_store self waste sc h fs w :
  h !! self = Some (ODict fs) → h !! waste = Some (OWaste w) →
  (OnStore.pyrolysis self waste sc h).1 = PyrolysisProcess.calculate_direct_emissions fs w sc.
Proof.
  intros Hs Hw. unfold OnStore.pyrolysis.
  rewrite St_bind_unfold. unfold load_waste. rewrite Hw.
  rewrite St_bind_unfold. unfold load_dict. by rewrite Hs.
Qed.

Lemma store_imul_run l k x (h : Store) d :
  h !! l = Some (ODict d) →
  store_imul l k x h =
    match imul d k x with
    | Ok d' => (Ok (), <[l := ODict d']> h)
    | Raise e => (Raise e, h)
    end.
Proof. unfold store_imul. by intros ->. Qed.

Lemma incineration_on_store self waste sc h fs w :
  h !! self = Some (ODict fs) → h !! waste = Some (OWaste w) →
  (OnStore.incineration self waste sc h).1 = IncinerationProcess.calculate_direct_emissions fs w sc.
Proof.
  intros Hs Hw. unfold OnStore.incineration, IncinerationProcess.calculate_direct_emissions.
  rewrite St_bind_unfold. unfold deepcopy. rewrite Hs. cbn zeta.
  pose proof (fresh_loc_None h) as Hfresh. set (f := fresh (dom h)) in *.
  assert (Hne : f ≠ waste) by (intros ->; congruence).
  assert (Hrest : ∀ d (h1 : Store), h1 !! f = Some (ODict d) → h1 !! waste = Some (OWaste w) →
    ((w ← load_waste waste; d ← load_dict f; lift (IncinerationProcess.formulas d w)) h1).1
      = IncinerationProcess.formulas d w).
  { intros d h1 Hf Hw1. rewrite St_bind_unfold. unfold load_waste. rewrite Hw1.
    rewrite St_bind_unfold. unfold load_dict. by rewrite Hf. }
  rewrite St_bind_unfold. unfold IncinerationProcess.scenario_adjust.
  destruct (scenario_value sc _) as [e|].
  - rewrite St_bind_unfold.
    rewrite (store_imul_run _ _ _ _ fs) by apply lookup_insert_eq.
    destruct (imul fs "pm10_per_organic" (1 - e)) as [f1|]; [|done]. cbn [mbind Res_bind].
    rewrite St_bind_unfold.
    rewrite (store_imul_run _ _ _ _ f1) by apply lookup_insert_eq.
    destruct (imul f1 "pm25_per_organic" (1 - e)) as [f2|]; [|done]. cbn [mbind Res_bind].
    rewrite (store_imul_run _ _ _ _ f2) by apply lookup_insert_eq.
    destruct (imul f2 "nox_per_waste" (1 - e)) as [f3|]; [|done].
    apply Hrest; [apply lookup_insert_eq|]. by rewrite !lookup_insert_ne.
  - cbn [mret St_ret mbind Res_bind]. apply Hrest; [apply lookup_insert_eq|].
    by rewrite lookup_insert_ne.
Qed.

(** C9.  A call of incineration or of pyrolysis, with any scenario, leaves
    the process's factor set and the stream as they were: incineration
    keeps every object of the store it was called on (it only adds its
    private copy of the factors, the one the scenario rescales), pyrolysis
    leaves the store unchanged; both return the value of the function of
    the factor set, the stream and the scenario. *)
Theorem calls_leave_inputs_unchanged (self waste : loc) (sc : option Scenario)
    (h : Store) (fs : Factors) (w : WasteStream) :
  h !! self = Some (ODict fs) →
  h !! waste = Some (OWaste w) →
  let after_incineration := (OnStore.incineration self waste sc h).2 in
  let after_pyrolysis := (OnStore.pyrolysis self waste sc h).2 in
  h ⊆ after_incineration ∧
  after_incineration !! self = Some (ODict fs) ∧
  after_incineration !! waste = Some (OWaste w) ∧
  after_pyrolysis = h ∧
  (OnStore.incineration self waste sc h).1 = IncinerationProcess.calculate_direct_emissions fs w sc ∧
  (OnStore.pyrolysis self waste sc h).1 = PyrolysisProcess.calculate_direct_emissions fs w sc.
Proof.
  intros Hs Hw. cbn zeta.
  pose proof (incineration_keeps_store self waste sc h) as Hsub.
  split; [done|]. split; [by eapply lookup_weaken|]. split; [by eapply lookup_weaken|].
  split; [apply pyrolysis_store_unchanged|].
  split; [by apply incineration_on_store | by apply pyrolysis_on_store].
Qed.

Lemma calls_leave_inputs_unchanged_witness :
  let sc : option Scenario := Some {[ "incineration_flue_gas_efficiency" := 0.5 ]} in
  let w := default_stream {| magnitude := 100; unit := kilogram |} in
  let after_incineration := (OnStore.incineration 1 2 sc example_store).2 in
  example_store !! 1%positive = Some (ODict config.INCINERATION) ∧
  example_store !! 2%positive = Some (OWaste w) ∧
  after_incineration !! 1%positive = Some (ODict config.INCINERATION) ∧
  after_incineration !! 2%positive = Some (OWaste w) ∧
  (OnStore.pyrolysis 1 2 sc example_store).2 = example_store.
Proof.
  cbv zeta. split; [reflexivity|]. split; [reflexivity|].
  destruct (calls_leave_inputs_unchanged 1 2
              (Some {[ "incineration_flue_gas_efficiency" := 0.5 ]}) example_store
              config.INCINERATION
              (default_stream {| magnitude := 100; unit := kilogram |})
              eq_refl eq_refl) as (_ & Hs & Hw & Hp & _).
  split; [exact Hs|]. split; [exact Hw | exact Hp].
Defined.

(** In the store of the example the scenario has rescaled the private copy,
    at the new reference [3]: its [pm10_per_organic] is half of the
    table's. *)
Example private_copy_is_rescaled :
  let sc : option Scenario := Some {[ "incineration_flue_gas_efficiency" := 0.5 ]} in
  ∃ d, (OnStore.incineration 1 2 sc example_store).2 !! 3%positive = Some (ODict d) ∧
       factor d "pm10_per_organic" == 0.5 * 0.000031.
Proof. eexists. split; reflexivity. Qed.

(** * The keys of a result *)

Section pyrolysis_dict.
Variables a b c d e f g : Q.
Lemma pyr_dom :
  dom (PyrolysisProcess.emissions_dict a b c d e f g)
    = {[ "co2_fossil"; "ch4_fossil"; "nmvoc"; "pahs"; "dioxin"; "hg"; "pb" ]}.
Proof. reflexivity. Qed.
End pyrolysis_dict.

(** C10.  For every stream, mass and scenario, the keys of the result of
    incineration are exactly [co2_fossil], [co2_biogenic], [so2], [nox],
    [pm10], [pm25], [hg], [pb], and those of the result of pyrolysis are
    exactly [co2_fossil], [ch4_fossil], [nmvoc], [pahs], [dioxin], [hg],
    [pb]: each is present whatever its magnitude, and there is no other. *)
Theorem result_keys (fi fp : Factors) (w : WasteStream) (sc : option Scenario) :
  has_keys incineration_keys fi = true →
  has_keys pyrolysis_keys fp = true →
  (∃ em, IncinerationProcess.calculate_direct_emissions fi w sc = Ok em ∧
     dom em = {[ "co2_fossil"; "co2_biogenic"; "so2"; "nox";
                 "pm10"; "pm25"; "hg"; "pb" ]}) ∧
  (∃ em, PyrolysisProcess.calculate_direct_emissions fp w sc = Ok em ∧
     dom em = {[ "co2_fossil"; "ch4_fossil"; "nmvoc"; "pahs";
                 "dioxin"; "hg"; "pb" ]}).
Proof.
  intros Hi Hp. split.
  - rewrite inc_closed_form by done. eexists. split; [done|]. apply inc_dom.
  - rewrite pyr_closed_form by done. eexists. split; [done|]. apply pyr_dom.
Qed.

Lemma result_keys_witness :
  has_keys incineration_keys config.INCINERATION = true ∧
  has_keys pyrolysis_keys config.PYROLYSIS = true ∧
  (∃ em, IncinerationProcess.calculate_direct_emissions
           config.INCINERATION metals_only_stream None = Ok em ∧
     dom em = {[ "co2_fossil"; "co2_biogenic"; "so2"; "nox";
                 "pm10"; "pm25"; "hg"; "pb" ]}) ∧
  (∃ em, PyrolysisProcess.calculate_direct_emissions
           config.PYROLYSIS metals_only_stream None = Ok em ∧
     dom em = {[ "co2_fossil"; "ch4_fossil"; "nmvoc"; "pahs";
                 "dioxin"; "hg"; "pb" ]}).
Proof.
  split; [reflexivity|]. split; [reflexivity|].
  apply (result_keys config.INCINERATION config.PYROLYSIS); reflexivity.
Defined.

(** * Further properties of the processes *)

Lemma getitem_None {V} (d : gmap string V) k : d !! k = None → getitem d k = Raise (KeyError k).
Proof. unfold getitem. by intros ->. Qed.

Lemma has_keys_false keys (f : Factors) :
  has_keys keys f = false → ∃ k, In k keys ∧ f !! k = None.
Proof.
  unfold has_keys. induction keys as [|k keys IH]; cbn; [done|].
  case_bool_decide as Hk; cbn.
  - intros (k' & ? & ?)%IH. eauto.
  - intros _. exists k. split; [by left|]. by apply eq_None_not_Some.
Qed.

(** The formulas raise [KeyError] for the first factor they subscript that
    is not in the table. *)
Lemma formulas_missing_factor (f : Factors) w :
  has_keys incineration_keys f = false →
  ∃ k, In k incineration_keys ∧ f !! k = None ∧
       IncinerationProcess.formulas f w = Raise (KeyError k).
Proof.
  intros Hk. unfold IncinerationProcess.formulas.
  repeat match goal with
  | |- context [getitem f ?k] =>
      destruct (f !! k) eqn:?;
      [ erewrite (getitem_Some f k) by eassumption; cbn [mbind Res_bind]
      | exists k; split; [cbn; tauto|]; split; [done|];
        by rewrite (getitem_None f k) ]
  end.
  exfalso. rewrite has_keys_intro in Hk; [done|]. repeat constructor; eauto.
Qed.

Lemma imul_None d k x : d !! k = None → imul d k x = Raise (KeyError k).
Proof. unfold imul. intros H. by rewrite (getitem_None _ _ H). Qed.

Lemma scenario_adjust_cases sc (f : Factors) :
  (∃ f', IncinerationProcess.scenario_adjust sc f = Ok f' ∧
         ∀ k, f' !! k = None ↔ f !! k = None) ∨
  (∃ k, In k incineration_keys ∧ f !! k = None ∧
        IncinerationProcess.scenario_adjust sc f = Raise (KeyError k)).
Proof.
  unfold IncinerationProcess.scenario_adjust.
  destruct (scenario_value sc _) as [e|]; [|left; by exists f].
  destruct (f !! "pm10_per_organic") as [v1|] eqn:H1; cycle 1.
  { right. exists "pm10_per_organic". rewrite (imul_None _ _ _ H1).
    split; [cbn; tauto | done]. }
  rewrite (imul_Some _ _ _ _ H1). cbn [mbind Res_bind].
  destruct (f !! "pm25_per_organic") as [v2|] eqn:H2; cycle 1.
  { right. exists "pm25_per_organic".
    rewrite imul_None by by rewrite lookup_insert_ne.
    split; [cbn; tauto | done]. }
  rewrite (imul_Some _ _ _ v2) by by rewrite lookup_insert_ne.
  cbn [mbind Res_bind].
  destruct (f !! "nox_per_waste") as [v3|] eqn:H3; cycle 1.
  { right. exists "nox_per_waste".
    rewrite imul_None by by rewrite !lookup_insert_ne.
    split; [cbn; tauto | done]. }
  rewrite (imul_Some _ _ _ v3) by by rewrite !lookup_insert_ne.
  left. eexists. split; [done|]. intros k.
  rewrite !lookup_insert. repeat case_decide; subst; by rewrite ?H1, ?H2, ?H3.
Qed.

(** X1.  When the factor table lacks one of the nine factors incineration
    subscripts, the call raises [KeyError] for a factor that is missing,
    whatever the stream and the scenario. *)
Theorem incineration_missing_factor (f : Factors) (w : WasteStream)
    (sc : option Scenario) :
  has_keys incineration_keys f = false →
  ∃ k, In k incineration_keys ∧ f !! k = None ∧
       IncinerationProcess.calculate_direct_emissions f w sc = Raise (KeyError k).
Proof.
  intros Hk. unfold IncinerationProcess.calculate_direct_emissions.
  destruct (scenario_adjust_cases sc f) as [(f' & -> & Hf')|(k & Hin & Hnone & ->)];
    [|by exists k].
  cbn [mbind Res_bind].
  destruct (formulas_missing_factor f' w) as (k & Hin & Hnone & ->).
  - destruct (has_keys incineration_keys f') eqn:Hk'; [|done].
    exfalso. rewrite has_keys_intro in Hk; [done|].
    apply Forall_forall. intros k Hin%list_elem_of_In.
    destruct (has_keys_lookup _ _ k Hk' Hin) as [v Hv].
    destruct (f !! k) eqn:Hfk; [by eexists|]. apply Hf' in Hfk. congruence.
  - exists k. by rewrite <- Hf'.
Qed.

Lemma incineration_missing_factor_witness :
  let f := delete "so2_conversion" config.INCINERATION in
  has_keys incineration_keys f = false ∧
  ∃ k, In k incineration_keys ∧ f !! k = None ∧
       IncinerationProcess.calculate_direct_emissions f metals_only_stream None
         = Raise (KeyError k).
Proof.
  split; [reflexivity|].
  apply (incineration_missing_factor (delete "so2_conversion" config.INCINERATION)).
  reflexivity.
Defined.

(** X2.  When the factor table lacks one of the seven factors pyrolysis
    subscripts, the call raises [KeyError] for a factor that is missing. *)
Theorem pyrolysis_missing_factor (f : Factors) (w : WasteStream)
    (sc : option Scenario) :
  has_keys pyrolysis_keys f = false →
  ∃ k, In k pyrolysis_keys ∧ f !! k = None ∧
       PyrolysisProcess.calculate_direct_emissions f w sc = Raise (KeyError k).
Proof.
  intros Hk. unfold PyrolysisProcess.calculate_direct_emissions.
  repeat match goal with
  | |- context [getitem f ?k] =>
      destruct (f !! k) eqn:?;
      [ erewrite (getitem_Some f k) by eassumption; cbn [mbind Res_bind]
      | exists k; split; [cbn; tauto|]; split; [done|];
        by rewrite (getitem_None f k) ]
  end.
  exfalso. rewrite has_keys_intro in Hk; [done|]. repeat constructor; eauto.
Qed.

Lemma pyrolysis_missing_factor_witness :
  has_keys pyrolysis_keys config.INCINERATION = false ∧
  ∃ k, In k pyrolysis_keys ∧ config.INCINERATION !! k = None ∧
       PyrolysisProcess.calculate_direct_emissions
         config.INCINERATION metals_only_stream None = Raise (KeyError k).
Proof.
  split; [reflexivity|].
  apply (pyrolysis_missing_factor config.INCINERATION). reflexivity.
Defined.

Section dict_forall.
Variable P : Q → Prop.

Lemma inc_dict_Forall a b c d e f g h :
  P a → P b → P c → P d → P e → P f → P g → P h →
  map_Forall (λ _, P) (IncinerationProcess.emissions_dict a b c d e f g h).
Proof.
  intros ???????? k v. unfold IncinerationProcess.emissions_dict.
  cbn [list_to_map foldr uncurry fst snd].
  rewrite !lookup_insert, !lookup_empty.
  repeat case_decide; by intros [= <-].
Qed.

Lemma pyr_dict_Forall a b c d e f g :
  P a → P b → P c → P d → P e → P f → P g →
  map_Forall (λ _, P) (PyrolysisProcess.emissions_dict a b c d e f g).
Proof.
  intros ??????? k v. unfold PyrolysisProcess.emissions_dict.
  cbn [list_to_map foldr uncurry fst snd].
  rewrite !lookup_insert, !lookup_empty.
  repeat case_decide; by intros [= <-].
Qed.
End dict_forall.

(** X3.  Incineration reads the scenario only at
    [incineration_flue_gas_efficiency]: setting or deleting any other key
    changes nothing, and the empty dictionary acts as no scenario.
    Pyrolysis ignores its scenario. *)
Theorem unrecognised_scenario_keys_are_ignored (fi fp : Factors) (w : WasteStream)
    (d : Scenario) (k : string) (v : Q) (sc : option Scenario) :
  k ≠ "incineration_flue_gas_efficiency" →
  IncinerationProcess.calculate_direct_emissions fi w (Some (<[k := v]> d))
    = IncinerationProcess.calculate_direct_emissions fi w (Some d) ∧
  IncinerationProcess.calculate_direct_emissions fi w (Some (delete k d))
    = IncinerationProcess.calculate_direct_emissions fi w (Some d) ∧
  IncinerationProcess.calculate_direct_emissions fi w (Some ∅)
    = IncinerationProcess.calculate_direct_emissions fi w None ∧
  PyrolysisProcess.calculate_direct_emissions fp w sc
    = PyrolysisProcess.calculate_direct_emissions fp w None.
Proof.
  intros Hk. unfold IncinerationProcess.calculate_direct_emissions,
    IncinerationProcess.scenario_adjust, scenario_value.
  rewrite lookup_insert_ne, lookup_delete_ne, lookup_empty by done.
  repeat split; reflexivity.
Qed.

Lemma unrecognised_scenario_keys_witness :
  let w := default_stream {| magnitude := 100; unit := kilogram |} in
  let d : Scenario := {[ "incineration_flue_gas_efficiency" := 0.5 ]} in
  "pyrolysis_temperature" ≠ "incineration_flue_gas_efficiency" ∧
  IncinerationProcess.calculate_direct_emissions config.INCINERATION w
      (Some (<["pyrolysis_temperature" := 450]> d))
    = IncinerationProcess.calculate_direct_emissions config.INCINERATION w (Some d).
Proof.
  split; [discriminate|].
  exact (proj1 (unrecognised_scenario_keys_are_ignored
    config.INCINERATION config.PYROLYSIS
    (default_stream {| magnitude := 100; unit := kilogram |})
    {[ "incineration_flue_gas_efficiency" := 0.5 ]}
    "pyrolysis_temperature" 450 None ltac:(discriminate))).
Defined.

(** X4.  A flue-gas efficiency of 0 gives the same emissions as no scenario. *)
Theorem zero_flue_gas_efficiency (f : Factors) (w : WasteStream) (d : Scenario) (e : Q) :
  has_keys incineration_keys f = true →
  d !! "incineration_flue_gas_efficiency" = Some e →
  e == 0 →
  ∃ em em', IncinerationProcess.calculate_direct_emissions f w (Some d) = Ok em ∧
            IncinerationProcess.calculate_direct_emissions f w None = Ok em' ∧
            same_emissions em em'.
Proof.
  intros Hk Hd He. rewrite !inc_closed_form by done.
  do 2 eexists. split; [done|]. split; [done|].
  assert (Hs : ∀ v, flue_gas_scaled (Some d) v == flue_gas_scaled None v).
  { intros v. rewrite (flue_gas_scaled_Some _ e) by done. cbn. rewrite He. ring. }
  intros k. apply inc_dict_pointwise; try reflexivity.
  - by rewrite Hs.
  - apply penalised_Qeq. by rewrite Hs.
  - apply penalised_Qeq. by rewrite Hs.
Qed.

Lemma zero_flue_gas_efficiency_witness :
  let w := default_stream {| magnitude := 100; unit := kilogram |} in
  let d : Scenario := {[ "incineration_flue_gas_efficiency" := 0 ]} in
  has_keys incineration_keys config.INCINERATION = true ∧
  d !! "incineration_flue_gas_efficiency" = Some 0 ∧
  0 == 0 ∧
  ∃ em em', IncinerationProcess.calculate_direct_emissions
              config.INCINERATION w (Some d) = Ok em ∧
            IncinerationProcess.calculate_direct_emissions
              config.INCINERATION w None = Ok em' ∧
            same_emissions em em'.
Proof.
  split; [reflexivity|]. split; [reflexivity|]. split; [reflexivity|].
  apply (zero_flue_gas_efficiency config.INCINERATION _ _ 0); reflexivity.
Defined.



(** ** Signs *)

Lemma penalised_nonneg f v : 0 <= v → 0 <= penalised f v.
Proof.
  intros H. unfold penalised. destruct (Qlt_le_dec _ _) as [Hlt|]; [|done].
  apply Qmult_le_0_compat; [done|]. lra.
Qed.

Lemma flue_gas_scaled_nonneg sc v :
  (∀ e, scenario_value sc "incineration_flue_gas_efficiency" = Some e → e <= 1) →
  0 <= v → 0 <= flue_gas_scaled sc v.
Proof.
  intros He Hv. unfold flue_gas_scaled.
  destruct (scenario_value sc _) as [e|]; [|done].
  apply Qmult_le_0_compat; [done|]. specialize (He e eq_refl). lra.
Qed.

Lemma nonneg_fractions_organic c :
  nonneg_fractions c →
  0 <= total_organic c ∧ 0 <= fossil_organic c ∧ 0 <= biogenic_organic c ∧
  0 <= total_chlor c ∧
  0 <= fraction c "heavy_metals_waste" "mercury_waste" ∧
  0 <= fraction c "heavy_metals_waste" "other_heavy_metals".
Proof.
  unfold nonneg_fractions, read_entries. intros H.
  repeat (apply Forall_cons_1 in H as [? H]). cbn [fst snd] in *.
  unfold biogenic_organic, total_organic, fossil_organic, total_chlor.
  repeat split; lra.
Qed.

(** X6.  Incineration returns no negative quantity when the mass, the
    fractions it reads and its nine factors are not negative and the
    flue-gas efficiency, if given, is at most 1. *)
Theorem incineration_emissions_nonneg (f : Factors) (w : WasteStream)
    (sc : option Scenario) :
  has_keys incineration_keys f = true →
  nonneg_factors incineration_keys f →
  nonneg_fractions (composition w) →
  0 <= magnitude (mass w) →
  (∀ e, scenario_value sc "incineration_flue_gas_efficiency" = Some e → e <= 1) →
  ∃ em, IncinerationProcess.calculate_direct_emissions f w sc = Ok em ∧
        nonneg_emissions em.
Proof.
  intros Hk Hf Hc Hm He.
  rewrite inc_closed_form by done. eexists; split; [done|].
  destruct (nonneg_fractions_organic _ Hc) as (? & ? & ? & ? & ? & ?).
  unfold nonneg_factors, incineration_keys in Hf.
  repeat (apply Forall_cons_1 in Hf as [? Hf]).
  apply inc_dict_Forall; unfold IncinerationProcess.energy;
    try apply penalised_nonneg; repeat apply Qmult_le_0_compat;
    try apply flue_gas_scaled_nonneg; try done.
  all: by destruct (unit (mass w)).
Qed.

Lemma incineration_emissions_nonneg_witness :
  let w := default_stream {| magnitude := 100; unit := kilogram |} in
  let sc : option Scenario := Some {[ "incineration_flue_gas_efficiency" := 0.5 ]} in
  has_keys incineration_keys config.INCINERATION = true ∧
  nonneg_factors incineration_keys config.INCINERATION ∧
  nonneg_fractions (composition w) ∧
  0 <= magnitude (mass w) ∧
  (∀ e, scenario_value sc "incineration_flue_gas_efficiency" = Some e → e <= 1) ∧
  ∃ em, IncinerationProcess.calculate_direct_emissions config.INCINERATION w sc = Ok em ∧
        nonneg_emissions em.
Proof.
  cbv zeta.
  assert (H1 : nonneg_factors incineration_keys config.INCINERATION)
    by (repeat constructor; discriminate).
  assert (H2 : nonneg_fractions (composition
      (default_stream {| magnitude := 100; unit := kilogram |})))
    by (repeat constructor; discriminate).
  assert (H3 : 0 <= magnitude (mass
      (default_stream {| magnitude := 100; unit := kilogram |}))) by discriminate.
  assert (H4 : ∀ e, scenario_value
      (Some ({[ "incineration_flue_gas_efficiency" := 0.5 ]} : Scenario))
      "incineration_flue_gas_efficiency" = Some e → e <= 1).
  { intros e [= <-]. discriminate. }
  split; [reflexivity|]. split; [exact H1|]. split; [exact H2|].
  split; [exact H3|]. split; [exact H4|].
  exact (incineration_emissions_nonneg config.INCINERATION _ _ eq_refl H1 H2 H3 H4).
Defined.

(** X7.  Pyrolysis returns no negative quantity when the mass, the fractions
    it reads and its seven factors are not negative. *)
Theorem pyrolysis_emissions_nonneg (f : Factors) (w : WasteStream)
    (sc : option Scenario) :
  has_keys pyrolysis_keys f = true →
  nonneg_factors pyrolysis_keys f →
  nonneg_fractions (composition w) →
  0 <= magnitude (mass w) →
  ∃ em, PyrolysisProcess.calculate_direct_emissions f w sc = Ok em ∧
        nonneg_emissions em.
Proof.
  intros Hk Hf Hc Hm.
  rewrite pyr_closed_form by done. eexists; split; [done|].
  destruct (nonneg_fractions_organic _ Hc) as (? & ? & ? & ? & ? & ?).
  unfold nonneg_factors, pyrolysis_keys in Hf.
  repeat (apply Forall_cons_1 in Hf as [? Hf]).
  apply pyr_dict_Forall; repeat apply Qmult_le_0_compat; try done.
  all: by destruct (unit (mass w)).
Qed.

Lemma pyrolysis_emissions_nonneg_witness :
  let w := default_stream {| magnitude := 100; unit := kilogram |} in
  has_keys pyrolysis_keys config.PYROLYSIS = true ∧
  nonneg_factors pyrolysis_keys config.PYROLYSIS ∧
  nonneg_fractions (composition w) ∧
  0 <= magnitude (mass w) ∧
  ∃ em, PyrolysisProcess.calculate_direct_emissions config.PYROLYSIS w None = Ok em ∧
        nonneg_emissions em.
Proof.
  cbv zeta.
  assert (H1 : nonneg_factors pyrolysis_keys config.PYROLYSIS)
    by (repeat constructor; discriminate).
  assert (H2 : nonneg_fractions (composition
      (default_stream {| magnitude := 100; unit := kilogram |})))
    by (repeat constructor; discriminate).
  assert (H3 : 0 <= magnitude (mass
      (default_stream {| magnitude := 100; unit := kilogram |}))) by discriminate.
  split; [reflexivity|]. split; [exact H1|]. split; [exact H2|]. split; [exact H3|].
  exact (pyrolysis_emissions_nonneg config.PYROLYSIS _ None eq_refl H1 H2 H3).
Defined.

(** ** What a result depends on *)

Section pyrolysis_dict_entries.
Variables a b c d e f g : Q.
Lemma pyr_dict_dioxin : PyrolysisProcess.emissions_dict a b c d e f g !! "dioxin" = Some e.
Proof. reflexivity. Qed.
Lemma pyr_dict_hg : PyrolysisProcess.emissions_dict a b c d e f g !! "hg" = Some f.
Proof. reflexivity. Qed.
Lemma pyr_dict_pb : PyrolysisProcess.emissions_dict a b c d e f g !! "pb" = Some g.
Proof. reflexivity. Qed.
End pyrolysis_dict_entries.

(** X8.  In pyrolysis [dioxin] depends on the stream only through its mass in
    kilograms and its total chlorinated fraction: two streams agreeing on
    these have the same [dioxin], whatever their organic fractions and the
    scenarios. *)
Theorem dioxin_independent_of_organic (f : Factors) (w w' : WasteStream)
    (sc sc' : option Scenario) :
  has_keys pyrolysis_keys f = true →
  magnitude (to_kg (mass w)) == magnitude (to_kg (mass w')) →
  total_chlor (composition w) == total_chlor (composition w') →
  ∃ em em', PyrolysisProcess.calculate_direct_emissions f w sc = Ok em ∧
            PyrolysisProcess.calculate_direct_emissions f w' sc' = Ok em' ∧
            same_entry (em !! "dioxin") (em' !! "dioxin").
Proof.
  intros Hk Hm Hc. rewrite !pyr_closed_form by done.
  do 2 eexists. split; [done|]. split; [done|].
  rewrite !pyr_dict_dioxin. constructor. by rewrite Hm, Hc.
Qed.

Lemma dioxin_independent_witness :
  let w := default_stream {| magnitude := 2; unit := metric_ton |} in
  let w' := {| mass := {| magnitude := 2000; unit := kilogram |};
               composition := {[ "chemical_waste" :=
                 {[ "cytotoxic_halogenated" := 0.015 ]} ]} |} in
  has_keys pyrolysis_keys config.PYROLYSIS = true ∧
  magnitude (to_kg (mass w)) == magnitude (to_kg (mass w')) ∧
  total_chlor (composition w) == total_chlor (composition w') ∧
  ¬ total_organic (composition w) == total_organic (composition w') ∧
  ∃ em em', PyrolysisProcess.calculate_direct_emissions config.PYROLYSIS w None = Ok em ∧
            PyrolysisProcess.calculate_direct_emissions config.PYROLYSIS w' None = Ok em' ∧
            same_entry (em !! "dioxin") (em' !! "dioxin").
Proof.
  intros w w'.
  assert (Hm : magnitude (to_kg (mass w)) == magnitude (to_kg (mass w')))
    by reflexivity.
  assert (Hc : total_chlor (composition w) == total_chlor (composition w'))
    by reflexivity.
  split; [reflexivity|]. split; [exact Hm|]. split; [exact Hc|].
  split; [by vm_compute|].
  exact (dioxin_independent_of_organic config.PYROLYSIS w w' None None eq_refl Hm Hc).
Defined.

(** ** Calls on the store, again *)

Lemma incineration_keeps_lookup self waste sc (h : Store) l o :
  h !! l = Some o → (OnStore.incineration self waste sc h).2 !! l = Some o.
Proof. intros H. eapply lookup_weaken; [done|]. apply incineration_keeps_store. Qed.

(** X10.  After a call of incineration with any scenario, a further call of
    incineration or of pyrolysis on the same factor set and stream returns
    what it would have returned before: the rescaling of one call is not
    carried over to the next. *)
Theorem calls_are_repeatable (self waste : loc) (sc sc' : option Scenario)
    (h : Store) (fs : Factors) (w : WasteStream) :
  h !! self = Some (ODict fs) →
  h !! waste = Some (OWaste w) →
  let h1 := (OnStore.incineration self waste sc h).2 in
  (OnStore.incineration self waste sc' h1).1
    = (OnStore.incineration self waste sc' h).1 ∧
  (OnStore.pyrolysis self waste sc' h1).1
    = (OnStore.pyrolysis self waste sc' h).1.
Proof.
  intros Hs Hw h1.
  pose proof (incineration_keeps_lookup self waste sc h _ _ Hs) as Hs1.
  pose proof (incineration_keeps_lookup self waste sc h _ _ Hw) as Hw1.
  split.
  - rewrite (incineration_on_store _ _ _ h1 fs w) by done.
    by rewrite (incineration_on_store _ _ _ h fs w).
  - rewrite (pyrolysis_on_store _ _ _ h1 fs w) by done.
    by rewrite (pyrolysis_on_store _ _ _ h fs w).
Qed.

Lemma calls_are_repeatable_witness :
  let sc : option Scenario := Some {[ "incineration_flue_gas_efficiency" := 0.5 ]} in
  let w := default_stream {| magnitude := 100; unit := kilogram |} in
  let h1 := (OnStore.incineration 1 2 sc example_store).2 in
  example_store !! 1%positive = Some (ODict config.INCINERATION) ∧
  example_store !! 2%positive = Some (OWaste w) ∧
  (OnStore.incineration 1 2 sc h1).1 = (OnStore.incineration 1 2 sc example_store).1 ∧
  (OnStore.pyrolysis 1 2 sc h1).1 = (OnStore.pyrolysis 1 2 sc example_store).1.
Proof.
  intros sc w h1. split; [reflexivity|]. split; [reflexivity|].
  exact (calls_are_repeatable 1 2 sc sc example_store config.INCINERATION w
           eq_refl eq_refl).
Defined.

Lemma store_imul_delete l k x (h : Store) :
  delete l (store_imul l k x h).2 = delete l h.
Proof.
  unfold store_imul. destruct (h !! l) as [[d|]|]; try done.
  destruct (imul d k x); cbn; [|done]. apply delete_insert_eq.
Qed.

Lemma St_bind_snd_delete {A B} l (m : St A) (k : A → St B) (h : Store) :
  delete l (m h).2 = delete l h →
  (∀ a h', delete l (k a h').2 = delete l h') →
  delete l ((m ≫= k) h).2 = delete l h.
Proof.
  intros Hm Hk. rewrite St_bind_unfold.
  destruct (m h) as [[a|e] h']; cbn in *; [|done]. by rewrite Hk.
Qed.

Lemma load_waste_snd l (h : Store) : (load_waste l h).2 = h.
Proof. unfold load_waste. by destruct (h !! l) as [[]|]. Qed.

Lemma load_dict_snd l (h : Store) : (load_dict l h).2 = h.
Proof. unfold load_dict. by destruct (h !! l) as [[]|]. Qed.

Lemma store_imul_dom l k x (h : Store) : dom h ⊆ dom (store_imul l k x h).2.
Proof.
  unfold store_imul. destruct (h !! l) as [[d|]|]; try done.
  destruct (imul d k x); cbn; [|done]. rewrite dom_insert_L. set_solver.
Qed.

Lemma St_bind_dom {A B} (m : St A) (k : A → St B) (h : Store) :
  dom h ⊆ dom (m h).2 →
  (∀ a h', dom h' ⊆ dom (k a h').2) →
  dom h ⊆ dom ((m ≫= k) h).2.
Proof.
  intros Hm Hk. rewrite St_bind_unfold.
  destruct (m h) as [[a|e] h']; cbn in *; [|done]. etrans; [done|]. apply Hk.
Qed.

(** X11.  A call of incineration adds at most one object to the store, at
    the next free reference, and changes no other; it adds exactly one
    when [self.factors] denotes an object. *)
Theorem incineration_adds_one_object (self waste : loc) (sc : option Scenario)
    (h : Store) :
  let h' := (OnStore.incineration self waste sc h).2 in
  delete (fresh (dom h)) h' = h ∧
  dom h' ⊆ dom h ∪ {[ fresh (dom h) ]} ∧
  (is_Some (h !! self) → dom h' = dom h ∪ {[ fresh (dom h) ]}).
Proof.
  intros h'.
  pose proof (fresh_loc_None h) as Hfresh.
  assert (Hdel : delete (fresh (dom h)) h' = h).
  { subst h'. unfold OnStore.incineration. rewrite St_bind_unfold. unfold deepcopy.
    destruct (h !! self) as [o|]; cbn zeta; [|by apply delete_id].
    set (f := fresh (dom h)) in *.
    rewrite <- (delete_id h f Hfresh) at 2.
    rewrite <- (delete_insert_eq h f o).
    generalize (<[f := o]> h). intros h1.
    apply St_bind_snd_delete.
    - destruct (scenario_value sc _); [|done].
      repeat (apply St_bind_snd_delete; [apply store_imul_delete | intros _ ?]).
      apply store_imul_delete.
    - intros _ h2. apply St_bind_snd_delete; [by rewrite load_waste_snd|].
      intros w h3. apply St_bind_snd_delete; [by rewrite load_dict_snd|].
      done. }
  split; [done|]. split.
  - rewrite <- Hdel at 1. rewrite dom_delete_L.
    intros l Hl. destruct (decide (l = fresh (dom h))) as [->|]; set_solver.
  - intros [o Ho]. apply set_eq. intros l.
    rewrite elem_of_union, elem_of_singleton. split.
    + intros Hl. destruct (decide (l = fresh (dom h))) as [->|Hne]; [by right|].
      left. rewrite <- Hdel. rewrite dom_delete_L. set_solver.
    + intros [Hl| ->].
      * apply elem_of_dom in Hl as [o' Ho']. apply elem_of_dom.
        exists o'. subst h'. by apply incineration_keeps_lookup.
      * subst h'. unfold OnStore.incineration. rewrite St_bind_unfold.
        unfold deepcopy. rewrite Ho. cbn zeta.
        apply elem_of_dom.
        assert (Hin : fresh (dom h) ∈ dom (<[fresh (dom h) := o]> h))
          by (rewrite dom_insert_L; set_solver).
        revert Hin. generalize (<[fresh (dom h) := o]> h).
        generalize (fresh (dom h)). clear. intros f h1 Hin.
        apply elem_of_dom. revert Hin. apply St_bind_dom.
        -- destruct (scenario_value sc _); [|done].
           repeat (apply St_bind_dom; [apply store_imul_dom | intros _ ?]).
           apply store_imul_dom.
        -- intros _ h2. apply St_bind_dom; [by rewrite load_waste_snd|].
           intros w h3. apply St_bind_dom; [by rewrite load_dict_snd|]. done.
Qed.

(** * Further properties of segregation *)

Lemma entry_adjust_other w e cat sub :
  ¬ In (cat, sub) hazardous_entries →
  entry (composition (adjust_for_segregation w e)) cat sub
    = entry (composition w) cat sub.
Proof.
  intros Hnot. unfold adjust_for_segregation; cbn.
  rewrite !entry_scale_if_present.
  repeat case_decide; destruct_and?; simplify_eq; try done.
  all: exfalso; apply Hnot; cbn; tauto.
Qed.

Lemma fraction_adjust w e cat sub :
  In (cat, sub) hazardous_entries →
  fraction (composition (adjust_for_segregation w e)) cat sub
    == fraction (composition w) cat sub * (1 - e).
Proof.
  intros Hin. rewrite !fraction_entry, entry_adjust by done.
  destruct (entry (composition w) cat sub); cbn; [reflexivity | ring].
Qed.

Lemma entry_adjust_is_Some w e cat sub :
  is_Some (entry (composition (adjust_for_segregation w e)) cat sub)
  ↔ is_Some (entry (composition w) cat sub).
Proof.
  destruct (decide (In (cat, sub) hazardous_entries)) as [Hin|Hnot].
  - rewrite entry_adjust by done. apply fmap_is_Some.
  - by rewrite entry_adjust_other.
Qed.

Lemma dom_scale_if_present cat sub k (c : Composition) :
  dom (scale_if_present cat sub k c) = dom c.
Proof.
  unfold scale_if_present, dict_get.
  destruct (c !! cat) as [d|] eqn:Hc; cbn.
  - destruct (d !! sub); [|done]. rewrite dom_insert_L.
    apply subseteq_union_1_L, singleton_subseteq_l. by eapply elem_of_dom_2.
  - by rewrite lookup_empty.
Qed.

(** X12.  Segregation with efficiency 1 leaves fraction 0 in each of the
    three hazardous entries (an entry that was present stays present, with
    value 0); with efficiency 0 it leaves them as they were. *)
Theorem segregation_boundary (w : WasteStream) :
  Forall (λ cs,
    let none_left := adjust_for_segregation w 1 in
    let untouched := adjust_for_segregation w 0 in
    fraction (composition none_left) cs.1 cs.2 == 0 ∧
    same_entry (entry (composition none_left) cs.1 cs.2)
               ((λ _, 0) <$> entry (composition w) cs.1 cs.2) ∧
    same_entry (entry (composition untouched) cs.1 cs.2)
               (entry (composition w) cs.1 cs.2))
    hazardous_entries.
Proof.
  apply Forall_forall. intros [cat sub] Hin%list_elem_of_In. cbv zeta. cbn [fst snd].
  rewrite fraction_adjust, !entry_adjust by done.
  split; [ring|].
  destruct (entry (composition w) cat sub) as [x|]; cbn;
    split; constructor; ring.
Qed.

(** X13.  Segregation keeps the mass, the categories of the composition and
    which entries are present, and it leaves every entry other than the
    three hazardous ones unchanged. *)
Theorem segregation_frame (w : WasteStream) (e : Q) (cat sub : string) :
  let w' := adjust_for_segregation w e in
  mass w' = mass w ∧
  dom (composition w') = dom (composition w) ∧
  (is_Some (entry (composition w') cat sub)
     ↔ is_Some (entry (composition w) cat sub)) ∧
  (¬ In (cat, sub) hazardous_entries →
     entry (composition w') cat sub = entry (composition w) cat sub).
Proof.
  cbv zeta. split; [done|]. split.
  - unfold adjust_for_segregation; cbn. by rewrite !dom_scale_if_present.
  - split; [apply entry_adjust_is_Some | apply entry_adjust_other].
Qed.

Lemma segregation_frame_witness :
  let w := default_stream {| magnitude := 100; unit := kilogram |} in
  let w' := adjust_for_segregation w 0.8 in
  ¬ In ("sharps_waste", "needles_sharps_metal") hazardous_entries ∧
  mass w' = mass w ∧
  dom (composition w') = dom (composition w) ∧
  entry (composition w') "sharps_waste" "needles_sharps_metal" = Some 0.02.
Proof.
  intros w w'.
  assert (Hnot : ¬ In ("sharps_waste", "needles_sharps_metal") hazardous_entries).
  { cbn. intros [H|[H|[H|[]]]]; discriminate H. }
  destruct (segregation_frame w 0.8 "sharps_waste" "needles_sharps_metal")
    as (Hm & Hd & _ & He).
  split; [exact Hnot|]. split; [exact Hm|]. split; [exact Hd|].
  exact (He Hnot).
Defined.

(** ** Segregation and the emissions *)

Section incineration_dict_entries.
Variables a b c d e f g h : Q.
End incineration_dict_entries.



(** * The flow index *)

Lemma build_flow_index_snoc db flow :
  database.build_flow_index (db ++ [flow])
    = <[database.flow_code flow := flow]> (database.build_flow_index db).
Proof. unfold database.build_flow_index. by rewrite foldl_app. Qed.

(** The last flow with a code is the indexed one. *)
Lemma build_flow_index_last (bio_db : list database.Flow) (code : string) :
  database.build_flow_index bio_db !! code
    = last (filter (λ flow, database.flow_code flow = code) bio_db).
Proof.
  induction bio_db as [|flow db IH] using rev_ind; [done|].
  rewrite build_flow_index_snoc, filter_app, lookup_insert.
  rewrite filter_cons, filter_nil.
  case_decide as Hc.
  - by rewrite last_snoc.
  - by rewrite app_nil_r.
Qed.

(** X17.  The index maps a code to the last flow of the database with that
    code. *)
Theorem build_flow_index_lookup (bio_db : list database.Flow) (code : string) :
  database.build_flow_index bio_db !! code
    = last (filter (λ flow, database.flow_code flow = code) bio_db).
Proof. exact (build_flow_index_last bio_db code). Qed.

Lemma build_flow_index_Some db code flow :
  database.build_flow_index db !! code = Some flow →
  flow ∈ db ∧ database.flow_code flow = code.
Proof.
  rewrite build_flow_index_last. intros H%last_Some_elem_of.
  by apply list_elem_of_filter in H as [? ?].
Qed.

Lemma build_flow_index_None db code :
  database.build_flow_index db !! code = None ↔
  code ∉ database.flow_code <$> db.
Proof.
  rewrite build_flow_index_last, last_None. split.
  - intros Hnil (flow & -> & Hin)%list_elem_of_fmap.
    assert (flow ∈ filter (λ flow', database.flow_code flow' = database.flow_code flow) db)
      as Hf by by apply list_elem_of_filter.
    rewrite Hnil in Hf. by apply not_elem_of_nil in Hf.
  - intros Hnot.
    destruct (filter _ db) as [|flow l] eqn:Hf; [done|]. exfalso.
    assert (Hin : flow ∈ filter (λ flow', database.flow_code flow' = code) db)
      by (rewrite Hf; left).
    apply list_elem_of_filter in Hin as [<- Hin].
    apply Hnot, list_elem_of_fmap. eauto.
Qed.

(** X18.  When the codes of the database are pairwise distinct, every flow of
    the database is found under its own code. *)
Theorem indexed_flows_are_found (bio_db : list database.Flow) (flow : database.Flow) :
  NoDup (database.flow_code <$> bio_db) →
  flow ∈ bio_db →
  database.get_flow_by_uuid (database.build_flow_index bio_db)
    (database.flow_code flow) = Ok flow.
Proof.
  intros Hnd Hin. unfold database.get_flow_by_uuid.
  destruct (database.build_flow_index bio_db !! database.flow_code flow)
    as [flow'|] eqn:Hl.
  - apply build_flow_index_Some in Hl as [Hin' Hc]. f_equal.
    apply list_elem_of_lookup in Hin as [i Hi], Hin' as [j Hj].
    assert (i = j) as ->; [|congruence].
    eapply NoDup_lookup; [done| |]; rewrite list_lookup_fmap.
    + by rewrite Hi.
    + rewrite Hj. cbn. by f_equal.
  - apply build_flow_index_None in Hl. exfalso. apply Hl.
    apply list_elem_of_fmap. eauto.
Qed.

(** X19.  On an index built from a database, [get_flow_by_uuid] returns a
    flow of the database with the code asked for, or raises [KeyError]
    with its message when no flow has that code. *)
Theorem get_flow_by_uuid_spec (bio_db : list database.Flow) (uuid : string) :
  match database.get_flow_by_uuid (database.build_flow_index bio_db) uuid with
  | Ok flow => flow ∈ bio_db ∧ database.flow_code flow = uuid
  | Raise e =>
      e = KeyError ("Flow with UUID " +:+ uuid +:+ " missing.") ∧
      uuid ∉ database.flow_code <$> bio_db
  end.
Proof.
  unfold database.get_flow_by_uuid.
  destruct (database.build_flow_index bio_db !! uuid) as [flow|] eqn:Hl.
  - by apply build_flow_index_Some.
  - split; [done|]. by apply build_flow_index_None.
Qed.

(** * Retrieving the flows *)

Lemma retrieve_loop_spec (flow_index : gmap string database.Flow) items flows :
  database.retrieve_loop flow_index items flows
    = Ok (foldl (λ acc kv, <[kv.1 := flow_index !! kv.2]> acc) flows items).
Proof.
  revert flows. induction items as [|[key uuid] items IH]; intros flows; [done|].
  cbn [database.retrieve_loop foldl fst snd]. unfold database.get_flow_by_uuid.
  destruct (flow_index !! uuid); apply IH.
Qed.

Lemma foldl_insert_notin {V} (f : string → V) (items : list (string * string))
    (acc : gmap string V) k :
  k ∉ items.*1 →
  foldl (λ acc kv, <[kv.1 := f kv.2]> acc) acc items !! k = acc !! k.
Proof.
  revert acc. induction items as [|[k' u] items IH]; intros acc Hk; [done|].
  cbn in *. apply not_elem_of_cons in Hk as [Hne Hk].
  rewrite IH by done. by rewrite lookup_insert_ne.
Qed.

Lemma foldl_insert_lookup {V} (f : string → V) (items : list (string * string))
    (acc : gmap string V) k u :
  NoDup items.*1 → (k, u) ∈ items →
  foldl (λ acc kv, <[kv.1 := f kv.2]> acc) acc items !! k = Some (f u).
Proof.
  revert acc. induction items as [|[k' u'] items IH]; intros acc Hnd Hin.
  { by apply not_elem_of_nil in Hin. }
  cbn in *. apply NoDup_cons in Hnd as [Hnotin Hnd].
  apply elem_of_cons in Hin as [[= <- <-]|Hin].
  - rewrite foldl_insert_notin by done. by rewrite lookup_insert_eq.
  - by apply IH.
Qed.

Lemma foldl_insert_dom {V} (f : string → V) (items : list (string * string))
    (acc : gmap string V) :
  dom (foldl (λ acc kv, <[kv.1 := f kv.2]> acc) acc items)
    = dom acc ∪ list_to_set items.*1.
Proof.
  revert acc. induction items as [|[k' u'] items IH]; intros acc; cbn.
  - by rewrite (right_id_L ∅ (∪)).
  - rewrite IH, dom_insert_L. by rewrite (assoc_L (∪)), (comm_L (∪) {[k']}).
Qed.

Lemma flow_uuids_NoDup : NoDup database.flow_uuids.*1 ∧ NoDup database.flow_uuids.*2.
Proof. split; apply (bool_decide_unpack _); by vm_compute. Qed.

(** What [retrieve_flows] returns. *)
Lemma retrieve_flows_result (flow_index : gmap string database.Flow) :
  ∃ flows, database.retrieve_flows flow_index = Ok flows ∧
    dom flows = list_to_set database.flow_uuids.*1 ∧
    Forall (λ kv, flows !! kv.1 = Some (flow_index !! kv.2)) database.flow_uuids.
Proof.
  unfold database.retrieve_flows. rewrite retrieve_loop_spec.
  eexists. split; [done|]. split.
  - by rewrite (foldl_insert_dom (λ u, flow_index !! u)), dom_empty_L,
      (left_id_L ∅ (∪)).
  - apply Forall_forall. intros [k u] Hin. cbn [fst snd].
    apply (foldl_insert_lookup (λ u, flow_index !! u));
      [apply flow_uuids_NoDup | done].
Qed.

(** X20.  [retrieve_flows] never raises; the keys of its result are the
    sixteen pollutant names, whatever the index, and the value at a name
    is the flow indexed under the name's UUID, or [None] when there is
    none. *)
Theorem retrieve_flows_spec (flow_index : gmap string database.Flow) :
  ∃ flows, database.retrieve_flows flow_index = Ok flows ∧
    dom flows = list_to_set database.flow_uuids.*1 ∧
    Forall (λ kv, flows !! kv.1 = Some (flow_index !! kv.2)) database.flow_uuids.
Proof. exact (retrieve_flows_result flow_index). Qed.

(** X21.  Every pollutant key of a result of incineration or of pyrolysis is
    a key of the result of [retrieve_flows]. *)
Theorem emitted_pollutants_have_a_flow_entry (fi fp : Factors) (w : WasteStream)
    (sc : option Scenario) (flow_index : gmap string database.Flow) :
  has_keys incineration_keys fi = true →
  has_keys pyrolysis_keys fp = true →
  ∃ em em' flows,
    IncinerationProcess.calculate_direct_emissions fi w sc = Ok em ∧
    PyrolysisProcess.calculate_direct_emissions fp w sc = Ok em' ∧
    database.retrieve_flows flow_index = Ok flows ∧
    dom em ⊆ dom flows ∧ dom em' ⊆ dom flows.
Proof.
  intros Hi Hp.
  destruct (retrieve_flows_result flow_index) as (flows & Hflows & Hdom & _).
  rewrite inc_closed_form, pyr_closed_form by done.
  do 2 eexists. exists flows. split; [done|]. split; [done|]. split; [done|].
  rewrite inc_dom, pyr_dom, Hdom.
  split; apply (bool_decide_unpack _); by vm_compute.
Qed.

Lemma emitted_pollutants_witness :
  let w := default_stream {| magnitude := 100; unit := kilogram |} in
  has_keys incineration_keys config.INCINERATION = true ∧
  has_keys pyrolysis_keys config.PYROLYSIS = true ∧
  ∃ em em' flows,
    IncinerationProcess.calculate_direct_emissions config.INCINERATION w None = Ok em ∧
    PyrolysisProcess.calculate_direct_emissions config.PYROLYSIS w None = Ok em' ∧
    database.retrieve_flows ∅ = Ok flows ∧
    dom em ⊆ dom flows ∧ dom em' ⊆ dom flows.
Proof.
  intros w. split; [reflexivity|]. split; [reflexivity|].
  exact (emitted_pollutants_have_a_flow_entry config.INCINERATION config.PYROLYSIS
           w None ∅ eq_refl eq_refl).
Defined.

(** * Exchanges *)

Section exchanges.
Variable save_error : database.Exchange → option exn.

Lemma add_biosphere_exchanges_exchanges act emissions flows :
  database.exchanges (database.add_biosphere_exchanges save_error act emissions flows)
    = database.exchanges act ++ omap (written save_error flows) emissions.
Proof.
  revert act. induction emissions as [|[name amount] emissions IH]; intros act.
  { by rewrite app_nil_r. }
  cbn [database.add_biosphere_exchanges omap list_omap].
  destruct (written save_error flows (name, amount)) as [exc|] eqn:Hw;
    unfold written in Hw; cbn [fst snd] in Hw;
    destruct (dict_get flows name None) as [flow|]; cbn [mbind option_bind] in Hw;
    try discriminate Hw; try apply IH;
    destruct (database.negligible amount); try discriminate Hw; try apply IH;
    fold (biosphere_exchange amount flow);
    destruct (save_error (biosphere_exchange amount flow));
    try discriminate Hw; try apply IH.
  injection Hw as <-. rewrite IH. cbn. by rewrite <- app_assoc.
Qed.
End exchanges.

Section exchange_properties.
Variable save_error : database.Exchange → option exn.

Lemma negligible_false amount :
  database.negligible amount = false ↔ 1e-15 < Qabs (magnitude amount).
Proof.
  unfold database.negligible. rewrite <- not_true_iff_false, Qle_bool_iff.
  split; [apply Qnot_le_lt | apply Qlt_not_le].
Qed.

Lemma dict_get_None_Some (flows : gmap string (option database.Flow)) name flow :
  dict_get flows name None = Some flow ↔ flows !! name = Some (Some flow).
Proof.
  unfold dict_get. destruct (flows !! name) as [[flow'|]|]; cbn; naive_solver.
Qed.

Lemma written_Some flows item exc :
  written save_error flows item = Some exc ↔
  ∃ flow, flows !! item.1 = Some (Some flow) ∧
          1e-15 < Qabs (magnitude item.2) ∧
          save_error (biosphere_exchange item.2 flow) = None ∧
          exc = biosphere_exchange item.2 flow.
Proof.
  unfold written. split.
  - destruct (dict_get flows item.1 None) as [flow|] eqn:Hf; cbn; [|done].
    apply dict_get_None_Some in Hf.
    destruct (database.negligible item.2) eqn:Hn; [done|].
    apply negligible_false in Hn.
    destruct (save_error _) eqn:Hs; [done|]. intros [= <-]. eauto.
  - intros (flow & Hf%dict_get_None_Some & Hn%negligible_false & Hs & ->).
    rewrite Hf. cbn. by rewrite Hn, Hs.
Qed.

(** X22.  The exchanges of the activity after [add_biosphere_exchanges] are
    those it had and, for each emission whose flow is resolved, whose
    magnitude exceeds 1e-15 in absolute value and whose exchange the
    database accepts, the biosphere exchange of that emission; nothing
    else. *)
Theorem biosphere_exchanges_written (act : database.Activity)
    (emissions : list (string * Quantity))
    (flows : gmap string (option database.Flow)) (exc : database.Exchange) :
  exc ∈ database.exchanges
          (database.add_biosphere_exchanges save_error act emissions flows)
  ↔ exc ∈ database.exchanges act ∨
    ∃ name amount flow,
      (name, amount) ∈ emissions ∧
      flows !! name = Some (Some flow) ∧
      1e-15 < Qabs (magnitude amount) ∧
      save_error (biosphere_exchange amount flow) = None ∧
      exc = biosphere_exchange amount flow.
Proof.
  rewrite add_biosphere_exchanges_exchanges, elem_of_app, list_elem_of_omap.
  apply or_iff_compat_l. split.
  - intros ([name amount] & Hin & (flow & ?)%written_Some). by exists name, amount, flow.
  - intros (name & amount & flow & Hin & ?). exists (name, amount).
    split; [done|]. apply written_Some. by exists flow.
Qed.

Lemma omap_length_le {A B} (f : A → option B) l :
  (length (omap f l) ≤ length l)%nat.
Proof. induction l as [|x l IH]; cbn; [done|]. destruct (f x); cbn; lia. Qed.

Lemma written_not_production flows emissions :
  filter (λ exc, database.exc_type exc = "production")
         (omap (written save_error flows) emissions) = [].
Proof.
  induction emissions as [|item emissions IH]; [done|]. cbn.
  destruct (written save_error flows item) as [exc|] eqn:Hw; [|done].
  apply written_Some in Hw as (flow & _ & _ & _ & ->).
  rewrite filter_cons. cbn. by rewrite decide_False.
Qed.

(** X23.  [add_biosphere_exchanges] keeps the key, name and unit of the
    activity, keeps its exchanges in place before the new ones, adds at
    most one exchange per emission, and leaves the production exchanges as
    they were; it raises nothing, also when the database refuses an
    exchange. *)
Theorem biosphere_exchanges_frame (act : database.Activity)
    (emissions : list (string * Quantity))
    (flows : gmap string (option database.Flow)) :
  let act' := database.add_biosphere_exchanges save_error act emissions flows in
  database.act_key act' = database.act_key act ∧
  database.act_name act' = database.act_name act ∧
  database.act_unit act' = database.act_unit act ∧
  database.exchanges act `prefix_of` database.exchanges act' ∧
  (length (database.exchanges act') ≤ length (database.exchanges act) + length emissions)%nat ∧
  production_exchanges act' = production_exchanges act.
Proof.
  cbv zeta.
  assert (Hfields : ∀ ems a,
    let a' := database.add_biosphere_exchanges save_error a ems flows in
    database.act_key a' = database.act_key a ∧
    database.act_name a' = database.act_name a ∧
    database.act_unit a' = database.act_unit a).
  { induction ems as [|[name amount] ems IH]; intros a; [done|].
    cbn [database.add_biosphere_exchanges].
    destruct (dict_get flows name None); [|apply IH].
    destruct (database.negligible amount); [apply IH|].
    destruct (save_error _); [apply IH|].
    destruct (IH (database.with_exchanges a
      (database.exchanges a ++ [{|
         database.exc_amount := magnitude amount;
         database.exc_type := "biosphere";
         database.exc_unit := database.unit_name (unit amount);
         database.exc_input := database.flow_key f |}]))) as (? & ? & ?).
    done. }
  destruct (Hfields emissions act) as (? & ? & ?).
  do 3 (split; [done|]).
  unfold production_exchanges. rewrite add_biosphere_exchanges_exchanges.
  split; [by eexists|]. split.
  - rewrite length_app. apply Nat.add_le_mono_l, omap_length_le.
  - by rewrite filter_app, written_not_production, app_nil_r.
Qed.
End exchange_properties.

Section production_exchange.
Variable save_error : database.Exchange → option exn.

Lemma filter_filter_neg {A} (P : A → Prop) `{!∀ x, Decision (P x)} (l : list A) :
  filter P (filter (λ x, ¬ P x) l) = [].
Proof.
  induction l as [|x l IH]; [done|]. rewrite filter_cons.
  case_decide as Hx; [|done]. rewrite filter_cons. by rewrite decide_False.
Qed.

Lemma filter_idemp {A} (P : A → Prop) `{!∀ x, Decision (P x)} (l : list A) :
  filter P (filter P l) = filter P l.
Proof.
  induction l as [|x l IH]; [done|]. rewrite filter_cons.
  case_decide as Hx; [|done]. rewrite filter_cons. by rewrite decide_True, IH.
Qed.

(** X24.  When the database accepts the new exchange,
    [add_production_exchange] leaves exactly one production exchange, the
    new one, after the other exchanges, which are kept in their order. *)
Theorem production_exchange_is_replaced (act : database.Activity) (amount : Q) :
  let exc := {| database.exc_amount := amount;
                database.exc_type := "production";
                database.exc_unit := database.act_unit act;
                database.exc_input := database.act_key act |} in
  save_error exc = None →
  ∃ act', database.add_production_exchange save_error act amount = (Ok (), act') ∧
    production_exchanges act' = [exc] ∧
    other_exchanges act' = other_exchanges act ∧
    database.exchanges act' = other_exchanges act ++ [exc] ∧
    database.act_key act' = database.act_key act ∧
    database.act_unit act' = database.act_unit act.
Proof.
  intros exc Hs. unfold database.add_production_exchange. cbn [database.with_exchanges
    database.act_unit database.act_key database.exchanges].
  fold exc. rewrite Hs. eexists. split; [done|].
  unfold production_exchanges, other_exchanges, database.with_exchanges.
  cbn [database.exchanges database.act_key database.act_unit].
  rewrite !filter_app, filter_filter_neg, filter_idemp.
  rewrite !filter_cons, !filter_nil. cbn [database.exc_type exc].
  rewrite decide_True, decide_False by (done || by intros []).
  by rewrite app_nil_r.
Qed.

(** X25.  When the database refuses the new exchange,
    [add_production_exchange] raises its exception and the activity is left
    with no production exchange: the former ones are already deleted. *)
Theorem production_exchange_failure (act : database.Activity) (amount : Q) (e : exn) :
  save_error {| database.exc_amount := amount;
                database.exc_type := "production";
                database.exc_unit := database.act_unit act;
                database.exc_input := database.act_key act |} = Some e →
  ∃ act', database.add_production_exchange save_error act amount = (Raise e, act') ∧
    production_exchanges act' = [] ∧
    database.exchanges act' = other_exchanges act.
Proof.
  intros Hs. unfold database.add_production_exchange. cbn [database.with_exchanges
    database.act_unit database.act_key database.exchanges].
  rewrite Hs. eexists. split; [done|].
  unfold production_exchanges, other_exchanges, database.with_exchanges.
  cbn [database.exchanges]. by rewrite filter_filter_neg.
Qed.

(** X26.  Calling [add_production_exchange] twice is calling it once with the
    second amount. *)
Theorem production_exchange_last_call_wins (act : database.Activity) (a b : Q) :
  database.add_production_exchange save_error
      (database.add_production_exchange save_error act a).2 b
    = database.add_production_exchange save_error act b.
Proof.
  unfold database.add_production_exchange, database.with_exchanges.
  cbn [database.act_unit database.act_key database.exchanges].
  destruct (save_error {| database.exc_amount := a |});
    cbn [snd database.act_unit database.act_key database.exchanges].
  - by rewrite filter_idemp.
  - rewrite filter_app, filter_idemp, filter_cons, filter_nil. cbn [database.exc_type].
    rewrite decide_False by (by intros []). by rewrite app_nil_r.
Qed.
End production_exchange.

(** * The properties on examples *)

Lemma incineration_adds_one_object_witness :
  let sc : option Scenario := Some {[ "incineration_flue_gas_efficiency" := 0.5 ]} in
  let h' := (OnStore.incineration 1 2 sc example_store).2 in
  is_Some (example_store !! 1%positive) ∧
  delete 3%positive h' = example_store ∧
  dom h' = dom example_store ∪ {[ 3%positive ]}.
Proof.
  intros sc h'.
  assert (Hs : is_Some (example_store !! 1%positive)) by by eexists.
  destruct (incineration_adds_one_object 1 2 sc example_store) as (Hd & _ & He).
  split; [exact Hs|]. split; [exact Hd | exact (He Hs)].
Defined.

Lemma indexed_flows_are_found_witness :
  let flow := {| database.flow_database := "biosphere3";
                 database.flow_code := "77357947-ccc5-438e-9996-95e65e1e1bce";
                 database.flow_name := "Nitrogen oxides" |} in
  NoDup (database.flow_code <$> example_flows) ∧
  flow ∈ example_flows ∧
  database.get_flow_by_uuid (database.build_flow_index example_flows)
    "77357947-ccc5-438e-9996-95e65e1e1bce" = Ok flow.
Proof.
  intros flow.
  assert (Hnd : NoDup (database.flow_code <$> example_flows)).
  { apply (bool_decide_unpack _). by vm_compute. }
  assert (Hin : flow ∈ example_flows) by (right; left).
  split; [exact Hnd|]. split; [exact Hin|].
  exact (indexed_flows_are_found example_flows flow Hnd Hin).
Defined.

Lemma production_exchange_is_replaced_witness :
  let exc := {| database.exc_amount := 1.0;
                database.exc_type := "production";
                database.exc_unit := "kilogram";
                database.exc_input := ("waste_db", "incineration_KBTH") |} in
  always_saves exc = None ∧
  ∃ act', database.add_production_exchange always_saves example_activity 1.0
            = (Ok (), act') ∧
    production_exchanges act' = [exc] ∧
    other_exchanges act' = other_exchanges example_activity ∧
    length (database.exchanges act') = 2%nat.
Proof.
  intros exc.
  destruct (production_exchange_is_replaced always_saves example_activity 1.0 eq_refl)
    as (act' & Hcall & Hp & Ho & He & _).
  split; [reflexivity|]. exists act'.
  split; [exact Hcall|]. split; [exact Hp|]. split; [exact Ho|].
  rewrite He. reflexivity.
Defined.

Lemma production_exchange_failure_witness :
  never_saves {| database.exc_amount := 1.0;
                 database.exc_type := "production";
                 database.exc_unit := database.act_unit example_activity;
                 database.exc_input := database.act_key example_activity |}
    = Some TypeError ∧
  ∃ act', database.add_production_exchange never_saves example_activity 1.0
            = (Raise TypeError, act') ∧
    production_exchanges act' = [] ∧
    database.exchanges act' = other_exchanges example_activity.
Proof.
  split; [reflexivity|].
  exact (production_exchange_failure never_saves example_activity 1.0 TypeError eq_refl).
Defined.

(** * From a result to the exchanges *)

Lemma elem_of_emission_items (em : Emissions) name amount :
  (name, amount) ∈ emission_items em ↔
  ∃ v, em !! name = Some v ∧ amount = {| magnitude := v; unit := kilogram |}.
Proof.
  unfold emission_items. rewrite list_elem_of_fmap. split.
  - intros ([k v] & [= -> ->] & Hin%elem_of_map_to_list). eauto.
  - intros (v & Hv & ->). exists (name, v). split; [done|].
    by apply elem_of_map_to_list.
Qed.

Lemma retrieved_flow (flow_index : gmap string database.Flow) flows name flow :
  database.retrieve_flows flow_index = Ok flows →
  flows !! name = Some (Some flow) ↔
  ∃ uuid, (name, uuid) ∈ database.flow_uuids ∧ flow_index !! uuid = Some flow.
Proof.
  intros Hr. destruct (retrieve_flows_result flow_index) as (flows' & Hr' & Hdom & Hall).
  rewrite Hr in Hr'. injection Hr' as <-.
  rewrite Forall_forall in Hall. split.
  - intros Hl. assert (Hin : name ∈ dom flows) by by eapply elem_of_dom_2.
    rewrite Hdom, elem_of_list_to_set in Hin.
    apply list_elem_of_fmap in Hin as ([k uuid] & -> & Hin).
    exists uuid. split; [done|]. specialize (Hall _ Hin). cbn [fst snd] in *. congruence.
  - intros (uuid & Hin & Hf). specialize (Hall _ Hin). cbn [fst snd] in Hall. by rewrite Hall, Hf.
Qed.

(** X27.  From a result to the activity: when the flows come from
    [retrieve_flows] on an index and the items are the entries of an emissions
    dictionary in any order, [add_biosphere_exchanges] leaves on the activity
    the exchanges it had and, for each pollutant of the dictionary whose
    identifier is in [flow_uuids] and in the index, whose amount is more than
    1e-15 in absolute value and whose exchange the database accepts, the
    biosphere exchange in kilograms with that amount and that flow's key;
    nothing else. *)
Theorem emissions_to_exchanges (save_error : database.Exchange → option exn)
    (em : Emissions) (items : list (string * Quantity))
    (flow_index : gmap string database.Flow) (act : database.Activity) :
  items ≡ₚ emission_items em →
  ∃ flows, database.retrieve_flows flow_index = Ok flows ∧
    ∀ exc,
      exc ∈ database.exchanges
              (database.add_biosphere_exchanges save_error act items flows)
      ↔ exc ∈ database.exchanges act ∨
        ∃ name v uuid flow,
          em !! name = Some v ∧
          (name, uuid) ∈ database.flow_uuids ∧
          flow_index !! uuid = Some flow ∧
          1e-15 < Qabs v ∧
          save_error exc = None ∧
          exc = {| database.exc_amount := v;
                   database.exc_type := "biosphere";
                   database.exc_unit := "kilogram";
                   database.exc_input := database.flow_key flow |}.
Proof.
  intros Hperm.
  destruct (retrieve_flows_result flow_index) as (flows & Hr & _).
  exists flows. split; [done|]. intros exc.
  rewrite add_biosphere_exchanges_exchanges, elem_of_app, list_elem_of_omap.
  apply or_iff_compat_l. split.
  - intros ([name amount] & Hin & (flow & Hf & Hn & Hs & ->)%written_Some).
    rewrite Hperm in Hin. apply elem_of_emission_items in Hin as (v & Hv & ->).
    cbn [fst snd] in *. apply (retrieved_flow _ _ _ _ Hr) in Hf as (uuid & Hu & Hf).
    by exists name, v, uuid, flow.
  - intros (name & v & uuid & flow & Hv & Hu & Hf & Hn & Hs & ->).
    exists (name, {| magnitude := v; unit := kilogram |}). split.
    + rewrite Hperm. apply elem_of_emission_items. eauto.
    + apply written_Some. exists flow. cbn [fst snd].
      split; [apply (retrieved_flow _ _ _ _ Hr); eauto|]. done.
Qed.

Lemma emissions_to_exchanges_witness :
  let em : Emissions := {[ "nox" := 0.00043; "so2" := 0; "nh3" := 2 ]} in
  let flow_index := database.build_flow_index example_flows in
  emission_items em ≡ₚ emission_items em ∧
  ∃ flows, database.retrieve_flows flow_index = Ok flows ∧
    ∀ exc,
      exc ∈ database.exchanges
              (database.add_biosphere_exchanges always_saves example_activity
                 (emission_items em) flows)
      ↔ exc ∈ database.exchanges example_activity ∨
        ∃ name v uuid flow,
          em !! name = Some v ∧
          (name, uuid) ∈ database.flow_uuids ∧
          flow_index !! uuid = Some flow ∧
          1e-15 < Qabs v ∧
          always_saves exc = None ∧
          exc = {| database.exc_amount := v;
                   database.exc_type := "biosphere";
                   database.exc_unit := "kilogram";
                   database.exc_input := database.flow_key flow |}.
Proof.
  intros em flow_index.
  assert (Hp : emission_items em ≡ₚ emission_items em) by reflexivity.
  split; [exact Hp|].
  exact (emissions_to_exchanges always_saves em (emission_items em) flow_index
           example_activity Hp).
Defined.

(** On the example the only exchange added is the one for [nox]: [so2] is
    negligible and [nh3] has no flow in the index. *)
Example example_exchanges_added :
  let em : Emissions := {[ "nox" := 0.00043; "so2" := 0; "nh3" := 2 ]} in
  ∃ flows,
    database.retrieve_flows (database.build_flow_index example_flows) = Ok flows ∧
    database.exchanges
      (database.add_biosphere_exchanges always_saves example_activity
         (emission_items em) flows)
    = database.exchanges example_activity ++
      [ {| database.exc_amount := 0.00043;
           database.exc_type := "biosphere";
           database.exc_unit := "kilogram";
           database.exc_input := ("biosphere3", "77357947-ccc5-438e-9996-95e65e1e1bce") |} ].
Proof. eexists. split; [reflexivity|]. by vm_compute. Qed.
